(** * Vedic calendar (sandhya-vandana): solar instants and derived windows

    A shallow embedding of [vedic-calendar.js] and the properties of its
    calculation core.

    Conventions of the embedding.
    - A JavaScript [Date] is its time value: milliseconds since the epoch,
      in UTC, as an integer of [Z].  The range limit of time values
      (8.64e15 ms) is not modelled.
    - The host's local time zone is the operation [LocalTZA] of the
      language: [LocalTZA t true] is the zone's offset (milliseconds) at the
      instant [t], and [LocalTZA t false] is the offset by which the host
      reads the local time [t], which for a local time that the clocks skip
      or show twice is the offset before the change.  [ES.fixed] is a host
      whose zone keeps one offset, [ES.summerTime] a host whose clocks
      change, and [hostTallinn] the zone Europe/Tallinn in 2024 and 2025.
    - The zone database behind [Utilities.formatDate] is a function
      [zoneOffset] giving, for a zone identifier and an instant, the UTC
      offset in minutes.
    - JavaScript numbers that hold minutes and angles are real numbers;
      rounding of IEEE doubles is not modelled.  Of the special values,
      [NaN] is [None]: the zone string that does not parse, and the arc
      cosine of a number outside its domain. *)

From Stdlib Require Import ZArith Lia Bool List.
From Stdlib Require Import Ascii String.
From Stdlib Require Import Reals Lra Machin.
Import ListNotations.

Set Default Proof Using "Type".

(** ** Time arithmetic of ECMAScript dates *)

Module ES.

Local Open Scope Z_scope.

Definition msPerSecond : Z := 1000.
Definition msPerMinute : Z := 60000.
Definition msPerHour : Z := 3600000.
Definition msPerDay : Z := 86400000.

Definition Day (t : Z) : Z := t / msPerDay.
Definition TimeWithinDay (t : Z) : Z := t mod msPerDay.

Definition isLeap (y : Z) : bool :=
  (y mod 4 =? 0) && (negb (y mod 100 =? 0) || (y mod 400 =? 0)).

Definition DaysInYear (y : Z) : Z := if isLeap y then 366 else 365.

Definition DayFromYear (y : Z) : Z :=
  365 * (y - 1970) + (y - 1969) / 4 - (y - 1901) / 100 + (y - 1601) / 400.

Definition TimeFromYear (y : Z) : Z := msPerDay * DayFromYear y.

(** The year of a day number: the largest [y] with [DayFromYear y <= d].
    The first guess uses the mean length of a year, 146097/400 days, and is
    off by at most one. *)
Definition YearFromDay (d : Z) : Z :=
  let y := 1970 + (d * 400) / 146097 in
  if d <? DayFromYear y then y - 1
  else if DayFromYear (y + 1) <=? d then y + 1
  else y.

Definition YearFromTime (t : Z) : Z := YearFromDay (Day t).

Definition DayWithinYear (t : Z) : Z := Day t - DayFromYear (YearFromTime t).

Definition HourFromTime (t : Z) : Z := (t / msPerHour) mod 24.
Definition MinFromTime (t : Z) : Z := (t / msPerMinute) mod 60.
Definition SecFromTime (t : Z) : Z := (t / msPerSecond) mod 60.
Definition msFromTime (t : Z) : Z := t mod msPerSecond.

Definition MakeTime (hour min sec ms : Z) : Z :=
  hour * msPerHour + min * msPerMinute + sec * msPerSecond + ms.

(** Days of the months before month [mn] (0 = January) of a year. *)
Definition daysBeforeMonth (leap : bool) (mn : Z) : Z :=
  let l := if leap then 1 else 0 in
  match mn with
  | 0 => 0
  | 1 => 31
  | 2 => 59 + l
  | 3 => 90 + l
  | 4 => 120 + l
  | 5 => 151 + l
  | 6 => 181 + l
  | 7 => 212 + l
  | 8 => 243 + l
  | 9 => 273 + l
  | 10 => 304 + l
  | _ => 334 + l
  end.

Definition daysInMonth (leap : bool) (mn : Z) : Z :=
  match mn with
  | 1 => if leap then 29 else 28
  | 3 | 5 | 8 | 10 => 30
  | _ => 31
  end.

(** [MakeDay]: the month is normalised into its year first; the day of the
    month is an offset from the first of that month, so that day 0 is the
    last day of the month before. *)
Definition MakeDay (year month date : Z) : Z :=
  let ym := year + month / 12 in
  let mn := month mod 12 in
  DayFromYear ym + daysBeforeMonth (isLeap ym) mn + date - 1.

Definition MakeDate (day time : Z) : Z := day * msPerDay + time.

(** *** The zone of the host

    [LocalTZA t isUTC] is the local time zone adjustment: for
    [isUTC = true], the offset of the zone at the instant [t]; for
    [isUTC = false], the offset by which a local time [t] is read.  When the
    clocks go forward, the local times they skip are read with the offset
    before the change, and so are, when the clocks go back, the local times
    they show twice. *)

(** A host whose zone keeps one offset. *)
Definition fixed (tza : Z) : Z -> bool -> Z := fun _ _ => tza.

(** A host whose clocks are [saving] ahead of [standard] during the
    periods of summer time, each from an instant to an instant.  An
    instant is in summer time when it lies in a period.  A local time is
    read as summer time when it lies in a period moved by the summer
    offset: the hour skipped at the start of a period falls before it and is
    read with the standard offset, the hour shown twice at its end falls
    within it and is read with the summer offset. *)
Record SummerZone : Type := {
  standard : Z;
  saving : Z;
  periods : list (Z * Z)
}.

Definition within (moved t : Z) (p : Z * Z) : bool :=
  (fst p + moved <=? t) && (t <? snd p + moved).

Definition summerTime (z : SummerZone) : Z -> bool -> Z :=
  fun t isUTC =>
    let moved := if isUTC then 0 else standard z + saving z in
    if existsb (within moved t) (periods z)
    then standard z + saving z
    else standard z.

Section HostZone.

Variable LocalTZA : Z -> bool -> Z.

Definition LocalTime (t : Z) : Z := t + LocalTZA t true.
Definition UTC (t : Z) : Z := t - LocalTZA t false.

(** [new Date(year, month, date)]: a year from 0 to 99 stands for 1900 + year. *)
Definition newDate (year month date : Z) : Z :=
  let yr := if (0 <=? year) && (year <=? 99) then 1900 + year else year in
  UTC (MakeDate (MakeDay yr month date) (MakeTime 0 0 0 0)).

Definition getFullYear (tv : Z) : Z := YearFromTime (LocalTime tv).
Definition getMinutes (tv : Z) : Z := MinFromTime (LocalTime tv).
Definition getSeconds (tv : Z) : Z := SecFromTime (LocalTime tv).
Definition getMilliseconds (tv : Z) : Z := msFromTime (LocalTime tv).

(** [date.setHours(hour, min, sec, ms)] and [date.setMinutes(min)], as the
    new time value of the date. *)
Definition setHours (tv hour min sec ms : Z) : Z :=
  let t := LocalTime tv in
  UTC (MakeDate (Day t) (MakeTime hour min sec ms)).

Definition setMinutes (tv min : Z) : Z :=
  let t := LocalTime tv in
  UTC (MakeDate (Day t)
         (MakeTime (HourFromTime t) min (SecFromTime t) (msFromTime t))).

End HostZone.

(** *** Month and day of the month *)

Definition InLeapYear (t : Z) : bool := isLeap (YearFromTime t).

Definition MonthFromTime (t : Z) : Z :=
  let d := DayWithinYear t in
  let l := if InLeapYear t then 1 else 0 in
  if d <? 31 then 0
  else if d <? 59 + l then 1
  else if d <? 90 + l then 2
  else if d <? 120 + l then 3
  else if d <? 151 + l then 4
  else if d <? 181 + l then 5
  else if d <? 212 + l then 6
  else if d <? 243 + l then 7
  else if d <? 273 + l then 8
  else if d <? 304 + l then 9
  else if d <? 334 + l then 10
  else 11.

Definition DateFromTime (t : Z) : Z :=
  DayWithinYear t - daysBeforeMonth (InLeapYear t) (MonthFromTime t) + 1.

Section HostCalendar.

Variable LocalTZA : Z -> bool -> Z.

Definition getHours (tv : Z) : Z := HourFromTime (LocalTime LocalTZA tv).
Definition getMonth (tv : Z) : Z := MonthFromTime (LocalTime LocalTZA tv).
Definition getDate (tv : Z) : Z := DateFromTime (LocalTime LocalTZA tv).

(** [date.setDate(dt)]: the day of the month is replaced, the month is
    kept, and the time within the day too. *)
Definition setDate (tv dt : Z) : Z :=
  let t := LocalTime LocalTZA tv in
  UTC LocalTZA
    (MakeDate (MakeDay (YearFromTime t) (MonthFromTime t) dt)
              (TimeWithinDay t)).

End HostCalendar.

End ES.

(** ** Strings of the host: [slice], [parseInt], and the two patterns of
    [Utilities.formatDate] the script uses *)

Module Str.

Local Open Scope Z_scope.

(** [s.slice(b, e)] and [s.slice(b)] for indices inside the string. *)
Definition slice (s : string) (b e : nat) : string := substring b (e - b) s.
Definition sliceFrom (s : string) (b : nat) : string :=
  substring b (String.length s - b) s.

Definition isDigit (c : ascii) : bool :=
  let n := nat_of_ascii c in (48 <=? n)%nat && (n <=? 57)%nat.

Definition isWhite (c : ascii) : bool :=
  let n := nat_of_ascii c in
  (n =? 32)%nat || ((9 <=? n)%nat && (n <=? 13)%nat).

Fixpoint skipWhite (s : string) : string :=
  match s with
  | String c s' => if isWhite c then skipWhite s' else s
  | EmptyString => s
  end.

(** The value of the longest prefix of decimal digits; [None] when there is
    no digit at all. *)
Fixpoint digitsValue (acc : Z) (seen : bool) (s : string) : option Z :=
  match s with
  | String c s' =>
      if isDigit c
      then digitsValue (10 * acc + (Z.of_nat (nat_of_ascii c) - 48)) true s'
      else if seen then Some acc else None
  | EmptyString => if seen then Some acc else None
  end.

(** [parseInt(s)] in radix 10: white space, an optional sign, digits; what
    follows the digits is ignored.  [None] is [NaN].  The hexadecimal prefix
    is not modelled. *)
Definition parseInt (s : string) : option Z :=
  match skipWhite s with
  | String "-"%char s' => option_map Z.opp (digitsValue 0 false s')
  | String "+"%char s' => digitsValue 0 false s'
  | s' => digitsValue 0 false s'
  end.

Definition digit (n : Z) : ascii := ascii_of_nat (48 + Z.to_nat (n mod 10)).

Definition twoDigits (n : Z) : string :=
  String (digit (n / 10)) (String (digit n) EmptyString).

(** Pattern ["Z"]: the sign of the offset, two digits of hours and two of
    minutes, as in ["+0200"]. *)
Definition formatOffset (off : Z) : string :=
  let a := Z.abs off in
  String (if off <? 0 then "-"%char else "+"%char)
         (twoDigits (a / 60) ++ twoDigits (a mod 60)).

(** Pattern ["HH:mm"] of a time value already shifted to the zone. *)
Definition formatHHmm (t : Z) : string :=
  twoDigits (ES.HourFromTime t) ++ ":" ++ twoDigits (ES.MinFromTime t).

End Str.

(** ** The script *)

Record Constants : Type := {
  LATITUDE : R;
  LONGITUDE : R;
  TIMEZONE : string;
  BRAHMA_MUHURTA_MINUTES_BEFORE_SUNRISE : Z;
  BRAHMA_MUHURTA_DURATION_MINUTES : Z;
  SANDHYA_DURATION_MINUTES : Z
}.

(** The constants as the script sets them, for Tallinn. *)
Definition tallinn : Constants := {|
  LATITUDE := 59.4369;
  LONGITUDE := 24.7536;
  TIMEZONE := "Europe/Tallinn";
  BRAHMA_MUHURTA_MINUTES_BEFORE_SUNRISE := 96;
  BRAHMA_MUHURTA_DURATION_MINUTES := 48;
  SANDHYA_DURATION_MINUTES := 24
|}.

(** Result of [getSunTimes]: minutes from the start of the day. *)
Record SunTimes : Type := {
  sunrise : R;
  solarNoon : R;
  sunset : R
}.

(** Result of [getSunTimesAsDate]: the keys [sunrise], [noon] and [sunset]
    of the script, as dates. *)
Record SunDates (D : Type) : Type := {
  sunriseDate : D;
  noon : D;
  sunsetDate : D
}.
Arguments sunriseDate {D}.
Arguments noon {D}.
Arguments sunsetDate {D}.

(** One period of [calculateVedicTimes]; [finish] is the key [end]. *)
Record Period (D : Type) : Type := {
  start : D;
  finish : D;
  type : string;
  description : string
}.
Arguments start {D}.
Arguments finish {D}.
Arguments type {D}.
Arguments description {D}.

Record VedicTimes (D : Type) : Type := {
  brahmaMuhurta : Period D;
  morningSandhya : Period D;
  noonSandhya : Period D;
  eveningSandhya : Period D
}.
Arguments brahmaMuhurta {D}.
Arguments morningSandhya {D}.
Arguments noonSandhya {D}.
Arguments eveningSandhya {D}.

(** [Math.floor], truncation, and the remainder operator [%], whose result
    takes the sign of the dividend. *)
Definition Math_floor (x : R) : Z := Zfloor x.

Definition truncate (x : R) : Z :=
  if Rle_dec 0 x then Zfloor x else Zceil x.

Definition remainder (n d : R) : R := (n - d * IZR (truncate (n / d)))%R.

Section Script.

Variable LocalTZA : Z -> bool -> Z.
Variable zoneOffset : string -> Z -> Z.

(** [Utilities.formatDate(date, timezone, "Z")] *)
Definition formatDate_Z (date : Z) (timezone : string) : string :=
  Str.formatOffset (zoneOffset timezone date).

(** [Utilities.formatDate(date, timezone, "HH:mm")] *)
Definition formatDate_HHmm (date : Z) (timezone : string) : string :=
  Str.formatHHmm (date + zoneOffset timezone date * ES.msPerMinute)%Z.

(** *** [getSunTimes], by its local variables *)

Definition dayOfYear (date : Z) : Z :=
  let startOfYear := ES.newDate LocalTZA (ES.getFullYear LocalTZA date) 0 0 in
  let diff := (date - startOfYear)%Z in
  let oneDay := (1000 * 60 * 60 * 24)%Z in
  (diff / oneDay)%Z.

Definition tzOffsetMinutes (date : Z) (timezone : string) : option Z :=
  let tzString := formatDate_Z date timezone in
  match Str.parseInt (Str.slice tzString 0 3),
        Str.parseInt (Str.sliceFrom tzString 3) with
  | Some h, Some m => Some (h * 60 + m)%Z
  | _, _ => None
  end.

Local Open Scope R_scope.

Definition rad : R := PI / 180.

Definition gamma (dayOfYear : Z) : R := 2 * PI / 365 * (IZR dayOfYear - 1).

Definition eqTime (gamma : R) : R :=
  229.18 * (0.000075 + 0.001868 * cos gamma - 0.032077 * sin gamma
            - 0.014615 * cos (2 * gamma) - 0.040849 * sin (2 * gamma)).

Definition decl (gamma : R) : R :=
  0.006918 - 0.399912 * cos gamma + 0.070257 * sin gamma
  - 0.006758 * cos (2 * gamma) + 0.000907 * sin (2 * gamma)
  - 0.002697 * cos (3 * gamma) + 0.00148 * sin (3 * gamma).

Definition solarNoonMinutes (lng eqTime : R) (tzOffsetMinutes : Z) : R :=
  720 - (4 * lng) - eqTime + IZR tzOffsetMinutes.

(** At 90 degrees north or south the real cosine of the latitude is 0 and
    the quotient has no value as a real number; the doubles of the script
    divide by the cosine of the double next to a right angle, about 6e-17.
    The statements about the value of [cosH] are for the latitudes between
    the poles. *)
Definition cosH (lat decl : R) : R :=
  cos (90.833 * rad) / (cos (lat * rad) * cos decl)
  - tan (lat * rad) * tan decl.

(** The two tests that limit [cosH] to the range from -1 to 1. *)
Definition limit (cosH : R) : R :=
  let cosH := if Rgt_dec cosH 1 then 1 else cosH in
  let cosH := if Rlt_dec cosH (-1) then -1 else cosH in
  cosH.

(** [Math.acos]: the arc cosine of a number from -1 to 1, and [NaN]
    outside. *)
Definition Math_acos (x : R) : option R :=
  if Rle_dec (-1) x
  then if Rle_dec x 1 then Some (acos x) else None
  else None.

Definition haMinutes (ha : R) : R := (ha * 180 / PI) * 4.

(** [None] is a result with a [NaN] in it: a zone string that does not
    parse makes the offset, and with it all three results, [NaN]; an hour
    angle that is [NaN] would make sunrise and sunset [NaN]. *)
Definition getSunTimes (date : Z) (lat lng : R) (timezone : string)
  : option SunTimes :=
  let g := gamma (dayOfYear date) in
  match tzOffsetMinutes date timezone with
  | Some tz =>
      let solarNoon := solarNoonMinutes lng (eqTime g) tz in
      let cosH := limit (cosH lat (decl g)) in
      match Math_acos cosH with
      | Some ha =>
          let haMinutes := haMinutes ha in
          Some {| sunrise := solarNoon - haMinutes;
                  solarNoon := solarNoon;
                  sunset := solarNoon + haMinutes |}
      | None => None
      end
  | None => None
  end.

Local Close Scope R_scope.

(** *** Dates by value *)

Definition minutesToDate (baseDate : Z) (minutes : R) : Z :=
  let date := baseDate in
  let hours := Math_floor (minutes / 60) in
  let mins := Math_floor (remainder minutes 60) in
  ES.setHours LocalTZA date hours mins 0 0.

Definition getSunTimesAsDate (date : Z) (lat lng : R) (timezone : string)
  : option (SunDates Z) :=
  match getSunTimes date lat lng timezone with
  | Some times =>
      Some {| sunriseDate := minutesToDate date (sunrise times);
              noon := minutesToDate date (solarNoon times);
              sunsetDate := minutesToDate date (sunset times) |}
  | None => None
  end.

Variable c : Constants.

Definition formatTime (date : Z) : string :=
  formatDate_HHmm date (TIMEZONE c).

(** [d = new Date(date); d.setMinutes(d.getMinutes() + k)] *)
Definition shifted (date k : Z) : Z :=
  ES.setMinutes LocalTZA date (ES.getMinutes LocalTZA date + k)%Z.

Local Open Scope string_scope.

Definition describe (what : string) (s e : Z) (anchor : string) (a : Z)
  : string :=
  what ++ ": " ++ formatTime s ++ " - " ++ formatTime e
       ++ String (ascii_of_nat 10) (anchor ++ ": " ++ formatTime a).

Definition calculateVedicTimes (sunTimes : SunDates Z) : VedicTimes Z :=
  let brahmaMuhurtaStart :=
    shifted (sunriseDate sunTimes) (- BRAHMA_MUHURTA_MINUTES_BEFORE_SUNRISE c) in
  let brahmaMuhurtaEnd :=
    shifted brahmaMuhurtaStart (BRAHMA_MUHURTA_DURATION_MINUTES c) in
  let morningSandhyaStart :=
    shifted (sunriseDate sunTimes) (- SANDHYA_DURATION_MINUTES c) in
  let morningSandhyaEnd :=
    shifted (sunriseDate sunTimes) (SANDHYA_DURATION_MINUTES c) in
  let noonSandhyaStart :=
    shifted (noon sunTimes) (- SANDHYA_DURATION_MINUTES c) in
  let noonSandhyaEnd :=
    shifted noonSandhyaStart (SANDHYA_DURATION_MINUTES c * 2) in
  let eveningSandhyaStart :=
    shifted (sunsetDate sunTimes) (- SANDHYA_DURATION_MINUTES c) in
  let eveningSandhyaEnd :=
    shifted (sunsetDate sunTimes) (SANDHYA_DURATION_MINUTES c) in
  {| brahmaMuhurta :=
       {| start := brahmaMuhurtaStart;
          finish := brahmaMuhurtaEnd;
          type := "Brahma-muhurta";
          description :=
            describe "Brahma-muhurta (time for spiritual practice before dawn)"
              brahmaMuhurtaStart brahmaMuhurtaEnd
              "Sunrise time" (sunriseDate sunTimes) |};
     morningSandhya :=
       {| start := morningSandhyaStart;
          finish := morningSandhyaEnd;
          type := "Morning Sandhya";
          description :=
            describe "Morning Sandhya (time for reciting Gayatri mantra at sunrise)"
              morningSandhyaStart morningSandhyaEnd
              "Exact sunrise time" (sunriseDate sunTimes) |};
     noonSandhya :=
       {| start := noonSandhyaStart;
          finish := noonSandhyaEnd;
          type := "Midday Sandhya";
          description :=
            describe "Midday Sandhya (time for reciting Gayatri mantra at noon)"
              noonSandhyaStart noonSandhyaEnd
              "Exact solar noon time" (noon sunTimes) |};
     eveningSandhya :=
       {| start := eveningSandhyaStart;
          finish := eveningSandhyaEnd;
          type := "Evening Sandhya";
          description :=
            describe "Evening Sandhya (time for reciting Gayatri mantra at sunset)"
              eveningSandhyaStart eveningSandhyaEnd
              "Exact sunset time" (sunsetDate sunTimes) |} |}.

(** The calculation of [createVedicEvents] for a given day: the sun times
    of the configured place, then the periods. *)
Definition vedicTimesFor (date : Z) : option (VedicTimes Z) :=
  option_map calculateVedicTimes
    (getSunTimesAsDate date (LATITUDE c) (LONGITUDE c) (TIMEZONE c)).

End Script.

(** ** Dates as objects

    [setHours] and [setMinutes] change a [Date] in place, and the script
    copies a date ([new Date(d)]) before it changes it.  Here the dates live
    in a store, a date is a reference into it, and each function of the
    script that handles dates threads the store. *)

Module Obj.

Definition ref : Type := nat.
Definition store : Type := list Z.

Definition M (A : Type) : Type := store -> A * store.

Definition ret {A : Type} (a : A) : M A := fun s => (a, s).

Definition bind {A B : Type} (m : M A) (f : A -> M B) : M B :=
  fun s => let (a, s') := m s in f a s'.

Notation "x <- m ;; k" := (bind m (fun x => k))
  (at level 61, m at next level, right associativity).
Notation "m ;;; k" := (bind m (fun _ => k))
  (at level 61, right associativity).

Fixpoint update (r : nat) (v : Z) (s : store) : store :=
  match s, r with
  | [], _ => []
  | _ :: s', O => v :: s'
  | x :: s', S r' => x :: update r' v s'
  end.

Definition valueOf (d : ref) : M Z := fun s => (nth d s 0%Z, s).
Definition setValue (d : ref) (tv : Z) : M unit := fun s => (tt, update d tv s).
Definition alloc (tv : Z) : M ref :=
  fun s => (List.length s, (s ++ [tv])%list).

Section Script.

Variable LocalTZA : Z -> bool -> Z.
Variable zoneOffset : string -> Z -> Z.

(** [new Date(d)], [new Date(year, month, date)] and the methods. *)
Definition copyDate (d : ref) : M ref := tv <- valueOf d ;; alloc tv.

Definition newDate (year month date : Z) : M ref :=
  alloc (ES.newDate LocalTZA year month date).

Definition getFullYear (d : ref) : M Z :=
  tv <- valueOf d ;; ret (ES.getFullYear LocalTZA tv).

Definition getMinutes (d : ref) : M Z :=
  tv <- valueOf d ;; ret (ES.getMinutes LocalTZA tv).

Definition setHours (d : ref) (hour min sec ms : Z) : M unit :=
  tv <- valueOf d ;; setValue d (ES.setHours LocalTZA tv hour min sec ms).

Definition setMinutes (d : ref) (min : Z) : M unit :=
  tv <- valueOf d ;; setValue d (ES.setMinutes LocalTZA tv min).

Definition getSunTimes (date : ref) (lat lng : R) (timezone : string)
  : M (option SunTimes) :=
  year <- getFullYear date ;;
  startOfYear <- newDate year 0 0 ;;
  tv <- valueOf date ;;
  sv <- valueOf startOfYear ;;
  let diff := (tv - sv)%Z in
  let oneDay := (1000 * 60 * 60 * 24)%Z in
  let dayOfYear := (diff / oneDay)%Z in
  let g := gamma dayOfYear in
  ret match tzOffsetMinutes zoneOffset tv timezone with
      | Some tz =>
          let solarNoon := solarNoonMinutes lng (eqTime g) tz in
          let cosH := limit (cosH lat (decl g)) in
          match Math_acos cosH with
          | Some ha =>
              let haMinutes := haMinutes ha in
              Some {| sunrise := (solarNoon - haMinutes)%R;
                      solarNoon := solarNoon;
                      sunset := (solarNoon + haMinutes)%R |}
          | None => None
          end
      | None => None
      end.

Definition minutesToDate (baseDate : ref) (minutes : R) : M ref :=
  date <- copyDate baseDate ;;
  let hours := Math_floor (minutes / 60) in
  let mins := Math_floor (remainder minutes 60) in
  setHours date hours mins 0 0 ;;;
  ret date.

Definition getSunTimesAsDate (date : ref) (lat lng : R) (timezone : string)
  : M (option (SunDates ref)) :=
  times <- getSunTimes date lat lng timezone ;;
  match times with
  | Some times =>
      sunriseDate <- minutesToDate date (sunrise times) ;;
      solarNoonDate <- minutesToDate date (solarNoon times) ;;
      sunsetDate <- minutesToDate date (sunset times) ;;
      ret (Some {| sunriseDate := sunriseDate;
                   noon := solarNoonDate;
                   sunsetDate := sunsetDate |})
  | None => ret None
  end.

Variable c : Constants.

Definition formatTime (date : ref) : M string :=
  tv <- valueOf date ;; ret (formatDate_HHmm zoneOffset tv (TIMEZONE c)).

(** [d = new Date(date); d.setMinutes(d.getMinutes() + k)] *)
Definition shifted (date : ref) (k : Z) : M ref :=
  d <- copyDate date ;;
  m <- getMinutes d ;;
  setMinutes d (m + k)%Z ;;;
  ret d.

Local Open Scope string_scope.

Definition describe (what : string) (s e : ref) (anchor : string) (a : ref)
  : M string :=
  fs <- formatTime s ;;
  fe <- formatTime e ;;
  fa <- formatTime a ;;
  ret (what ++ ": " ++ fs ++ " - " ++ fe
            ++ String (ascii_of_nat 10) (anchor ++ ": " ++ fa)).

Definition calculateVedicTimes (sunTimes : SunDates ref) : M (VedicTimes ref) :=
  brahmaMuhurtaStart <-
    shifted (sunriseDate sunTimes) (- BRAHMA_MUHURTA_MINUTES_BEFORE_SUNRISE c) ;;
  brahmaMuhurtaEnd <-
    shifted brahmaMuhurtaStart (BRAHMA_MUHURTA_DURATION_MINUTES c) ;;
  morningSandhyaStart <-
    shifted (sunriseDate sunTimes) (- SANDHYA_DURATION_MINUTES c) ;;
  morningSandhyaEnd <-
    shifted (sunriseDate sunTimes) (SANDHYA_DURATION_MINUTES c) ;;
  noonSandhyaStart <-
    shifted (noon sunTimes) (- SANDHYA_DURATION_MINUTES c) ;;
  noonSandhyaEnd <-
    shifted noonSandhyaStart (SANDHYA_DURATION_MINUTES c * 2) ;;
  eveningSandhyaStart <-
    shifted (sunsetDate sunTimes) (- SANDHYA_DURATION_MINUTES c) ;;
  eveningSandhyaEnd <-
    shifted (sunsetDate sunTimes) (SANDHYA_DURATION_MINUTES c) ;;
  d1 <- describe "Brahma-muhurta (time for spiritual practice before dawn)"
          brahmaMuhurtaStart brahmaMuhurtaEnd
          "Sunrise time" (sunriseDate sunTimes) ;;
  d2 <- describe "Morning Sandhya (time for reciting Gayatri mantra at sunrise)"
          morningSandhyaStart morningSandhyaEnd
          "Exact sunrise time" (sunriseDate sunTimes) ;;
  d3 <- describe "Midday Sandhya (time for reciting Gayatri mantra at noon)"
          noonSandhyaStart noonSandhyaEnd
          "Exact solar noon time" (noon sunTimes) ;;
  d4 <- describe "Evening Sandhya (time for reciting Gayatri mantra at sunset)"
          eveningSandhyaStart eveningSandhyaEnd
          "Exact sunset time" (sunsetDate sunTimes) ;;
  ret {| brahmaMuhurta :=
           {| start := brahmaMuhurtaStart; finish := brahmaMuhurtaEnd;
              type := "Brahma-muhurta"; description := d1 |};
         morningSandhya :=
           {| start := morningSandhyaStart; finish := morningSandhyaEnd;
              type := "Morning Sandhya"; description := d2 |};
         noonSandhya :=
           {| start := noonSandhyaStart; finish := noonSandhyaEnd;
              type := "Midday Sandhya"; description := d3 |};
         eveningSandhya :=
           {| start := eveningSandhyaStart; finish := eveningSandhyaEnd;
              type := "Evening Sandhya"; description := d4 |} |}.

Definition vedicTimesFor (date : ref) : M (option (VedicTimes ref)) :=
  sunTimes <-
    getSunTimesAsDate date (LATITUDE c) (LONGITUDE c) (TIMEZONE c) ;;
  match sunTimes with
  | Some sunTimes => vt <- calculateVedicTimes sunTimes ;; ret (Some vt)
  | None => ret None
  end.

End Script.

(** What a caller sees of a result: the time value behind each date. *)
Definition readPeriod (s : store) (p : Period ref) : Period Z :=
  {| start := nth (start p) s 0%Z;
     finish := nth (finish p) s 0%Z;
     type := type p;
     description := description p |}.

Definition readTimes (s : store) (v : VedicTimes ref) : VedicTimes Z :=
  {| brahmaMuhurta := readPeriod s (brahmaMuhurta v);
     morningSandhya := readPeriod s (morningSandhya v);
     noonSandhya := readPeriod s (noonSandhya v);
     eveningSandhya := readPeriod s (eveningSandhya v) |}.

End Obj.

(** ** The calendars, the triggers and the log

    The services of the host that the script calls, as the state they
    keep: the calendars of the user with the events created in them, the
    triggers of the project, and the lines of the log.  A calendar object
    is its position in the list of calendars.  The clock is an argument,
    [Utilities.formatDate] with the pattern ["yyyy-MM-dd"] is the function
    [formatDay], and failures of the services are outside the model. *)

Module Apps.

Record Event : Type := {
  evTitle : string;
  evStart : Z;
  evEnd : Z;
  evDescription : string;
  evLocation : string;
  evTimezone : string
}.

Record Calendar : Type := {
  calName : string;
  calColor : string;
  calTimezone : string;
  calEvents : list Event
}.

Inductive Schedule : Type :=
  | Daily (hour days : Z)
  | OtherSchedule (what : string).

Record Trigger : Type := {
  uniqueId : nat;
  handlerFunction : string;
  schedule : Schedule
}.

Record World : Type := {
  calendars : list Calendar;
  triggers : list Trigger;
  logger : list string
}.

Definition CALENDAR_NAME : string := "Vedic Calendar".

(** [CalendarApp.createCalendar(name, {color, timezone})]: a new, empty
    calendar after the others. *)
Definition createCalendar (name color timezone : string)
    (cs : list Calendar) : nat * list Calendar :=
  (List.length cs,
   (cs ++ [{| calName := name; calColor := color;
              calTimezone := timezone; calEvents := [] |}])%list).

(** [calendar.createEvent(title, start, end, options)]: one more event in
    that calendar. *)
Fixpoint createEvent (calendar : nat) (e : Event) (cs : list Calendar)
  : list Calendar :=
  match cs, calendar with
  | [], _ => []
  | c :: cs', O =>
      {| calName := calName c; calColor := calColor c;
         calTimezone := calTimezone c;
         calEvents := (calEvents c ++ [e])%list |} :: cs'
  | c :: cs', S n => c :: createEvent n e cs'
  end.

(** [ScriptApp.deleteTrigger(t)] and the trigger that
    [newTrigger(handler).timeBased().atHour(h).everyDays(d).create()] adds,
    under an identifier that no trigger of the project has. *)
Definition deleteTrigger (t : Trigger) (ts : list Trigger) : list Trigger :=
  filter (fun u => negb (uniqueId u =? uniqueId t)%nat) ts.

Definition freshId (ts : list Trigger) : nat :=
  S (list_max (map uniqueId ts)).

Definition newDailyTrigger (handler : string) (hour days : Z)
    (ts : list Trigger) : list Trigger :=
  (ts ++ [{| uniqueId := freshId ts; handlerFunction := handler;
             schedule := Daily hour days |}])%list.

Definition log (line : string) (w : World) : World :=
  {| calendars := calendars w; triggers := triggers w;
     logger := (logger w ++ [line])%list |}.

Section Script.

Variable LocalTZA : Z -> bool -> Z.
Variable zoneOffset : string -> Z -> Z.
Variable formatDay : Z -> string -> string.
Variable c : Constants.

(** The loop of [getOrCreateCalendar]: the first calendar, from position
    [i] on, whose name is the name looked for. *)
Fixpoint findCalendar (cs : list Calendar) (i : nat) : option nat :=
  match cs with
  | [] => None
  | cal :: cs' =>
      if String.eqb (calName cal) CALENDAR_NAME then Some i
      else findCalendar cs' (S i)
  end.

Definition getOrCreateCalendar (cs : list Calendar) : nat * list Calendar :=
  match findCalendar cs 0 with
  | Some calendar => (calendar, cs)
  | None => createCalendar CALENDAR_NAME "ORANGE" (TIMEZONE c) cs
  end.

Local Open Scope string_scope.

(** The event that [createCalendarEvents] creates for one period. *)
Definition eventOf (p : Period Z) (dateStr : string) : Event :=
  {| evTitle := type p ++ " (" ++ dateStr ++ ")";
     evStart := start p;
     evEnd := finish p;
     evDescription := description p;
     evLocation := "Tallinn, Estonia";
     evTimezone := TIMEZONE c |}.

Definition createCalendarEvents (vedicTimes : VedicTimes Z) (date : Z)
    (cs : list Calendar) : list Calendar :=
  let (calendar, cs) := getOrCreateCalendar cs in
  let dateStr := formatDay date (TIMEZONE c) in
  let cs := createEvent calendar (eventOf (brahmaMuhurta vedicTimes) dateStr) cs in
  let cs := createEvent calendar (eventOf (morningSandhya vedicTimes) dateStr) cs in
  let cs := createEvent calendar (eventOf (noonSandhya vedicTimes) dateStr) cs in
  let cs := createEvent calendar (eventOf (eveningSandhya vedicTimes) dateStr) cs in
  cs.

(** [createVedicEvents], with [now] for [new Date()].  Were the zone string
    not to parse, the dates would be invalid; the world is then left as it
    is. *)
Definition createVedicEvents (now : Z) (w : World) : World :=
  let today := now in
  let tomorrow := ES.setDate LocalTZA today (ES.getDate LocalTZA today + 1) in
  match getSunTimesAsDate LocalTZA zoneOffset tomorrow
          (LATITUDE c) (LONGITUDE c) (TIMEZONE c) with
  | Some sunTimes =>
      let vedicTimes := calculateVedicTimes LocalTZA zoneOffset c sunTimes in
      let w :=
        {| calendars := createCalendarEvents vedicTimes tomorrow (calendars w);
           triggers := triggers w;
           logger := logger w |} in
      log ("Vedic events created for " ++ formatDay tomorrow (TIMEZONE c)) w
  | None => w
  end.

(** The loop of [setupTrigger] over the triggers found at its start. *)
Fixpoint removeHandlers (found : list Trigger) (ts : list Trigger)
  : list Trigger :=
  match found with
  | [] => ts
  | t :: found' =>
      if String.eqb (handlerFunction t) "createVedicEvents"
      then removeHandlers found' (deleteTrigger t ts)
      else removeHandlers found' ts
  end.

Definition setupTrigger (w : World) : World :=
  let found := triggers w in
  let ts := removeHandlers found (triggers w) in
  log "Daily trigger set to run at 6:00 PM."
    {| calendars := calendars w;
       triggers := newDailyTrigger "createVedicEvents" 18 1 ts;
       logger := logger w |}.

Definition manualRun (now : Z) (w : World) : World :=
  log "Script executed manually. Check calendar for created events."
    (createVedicEvents now w).

End Script.

End Apps.

(** ** Notions used in the statements *)

(** The zone Europe/Tallinn in 2024 and 2025: two hours ahead of Greenwich,
    three from 01:00 UTC of the last Sunday of March to 01:00 UTC of the
    last Sunday of October. *)
Definition hostTallinn : Z -> bool -> Z :=
  ES.summerTime
    {| ES.standard := 7200000;
       ES.saving := 3600000;
       ES.periods := [(1711846800000, 1729990800000);
                      (1743296400000, 1761440400000)]%Z |}.

(** The zone database for Europe/Tallinn in the same years, in minutes. *)
Definition zoneTallinn : string -> Z -> Z :=
  fun _ t => (hostTallinn t true / 60000)%Z.

(** The host has the offset [o] at the instant [t], and reads the local
    time of [t] with it. *)
Definition steady (LocalTZA : Z -> bool -> Z) (o t : Z) : Prop :=
  LocalTZA t true = o /\ LocalTZA (t + o)%Z false = o.

(** A local time that the host shows: conversion to an instant and back
    gives it again.  The local times that the clocks skip are not shown. *)
Definition shown (LocalTZA : Z -> bool -> Z) (t : Z) : Prop :=
  ES.LocalTime LocalTZA (ES.UTC LocalTZA t) = t.

(** A host that moves a local time, where it moves one, by whole minutes:
    a local time that the clocks skip is read as a local time some minutes
    later. *)
Definition wholeMinuteChanges (LocalTZA : Z -> bool -> Z) : Prop :=
  forall x : Z,
    ((ES.LocalTime LocalTZA (ES.UTC LocalTZA x) - x) mod ES.msPerMinute = 0)%Z.

(** The three solar instants, and the eight dates that the rules of the
    periods give, in the order in which [calculateVedicTimes] makes them:
    start and end of the pre-dawn period and of the three sandhyas. *)
Definition solarInstants (sunTimes : SunDates Z) : list Z :=
  [sunriseDate sunTimes; noon sunTimes; sunsetDate sunTimes].


(** The hour angle in minutes that the script computes from a value of
    [cosH]: the two tests, the arc cosine, the conversion. *)
Definition hourAngleMinutes (cosH : R) : R := haMinutes (acos (limit cosH)).

(** A project with two triggers of the script, left by earlier set-ups,
    and a trigger of another handler between them. *)
Definition busyProject : Apps.World :=
  {| Apps.calendars := [];
     Apps.triggers :=
       [{| Apps.uniqueId := 1; Apps.handlerFunction := "createVedicEvents";
           Apps.schedule := Apps.Daily 18 1 |};
        {| Apps.uniqueId := 2; Apps.handlerFunction := "sendReport";
           Apps.schedule := Apps.OtherSchedule "weekly" |};
        {| Apps.uniqueId := 3; Apps.handlerFunction := "createVedicEvents";
           Apps.schedule := Apps.Daily 18 1 |}];
     Apps.logger := [] |}.


(** A trigger that the loop of [setupTrigger] over the triggers [found]
    leaves in the project: none of those that call the handler has its
    identifier. *)
Definition kept (found : list Apps.Trigger) (u : Apps.Trigger) : bool :=
  negb (existsb
          (fun t => String.eqb (Apps.handlerFunction t) "createVedicEvents"
                    && (Apps.uniqueId u =? Apps.uniqueId t)%nat)
          found).


(** The four events of a day, in the order in which
    [createCalendarEvents] creates them. *)
Definition fourEvents (c : Constants) (v : VedicTimes Z) (dateStr : string)
  : list Apps.Event :=
  [Apps.eventOf c (brahmaMuhurta v) dateStr;
   Apps.eventOf c (morningSandhya v) dateStr;
   Apps.eventOf c (noonSandhya v) dateStr;
   Apps.eventOf c (eveningSandhya v) dateStr].


(** The events of the calendar at a position, and the triggers of a
    project that call a handler. *)
Definition eventsAt (cs : list Apps.Calendar) (calendar : nat)
  : list Apps.Event :=
  match nth_error cs calendar with
  | Some cal => Apps.calEvents cal
  | None => []
  end.

Definition triggersFor (handler : string) (ts : list Apps.Trigger)
  : list Apps.Trigger :=
  filter (fun t => String.eqb (Apps.handlerFunction t) handler) ts.

Definition otherTriggers (handler : string) (ts : list Apps.Trigger)
  : list Apps.Trigger :=
  filter (fun t => negb (String.eqb (Apps.handlerFunction t) handler)) ts.


(** The eight dates of the periods, in the order in which
    [calculateVedicTimes] makes them. *)
Definition datesOf {D : Type} (v : VedicTimes D) : list D :=
  [start (brahmaMuhurta v); finish (brahmaMuhurta v);
   start (morningSandhya v); finish (morningSandhya v);
   start (noonSandhya v); finish (noonSandhya v);
   start (eveningSandhya v); finish (eveningSandhya v)].


(** What the script reads from the zone string of an offset: the hours
    with the sign, times 60, plus the minutes without it. *)
Definition readOffset (off : Z) : Z :=
  let a := Z.abs off in
  let hh := ((a / 60 / 10) mod 10 * 10 + (a / 60) mod 10)%Z in
  let mm := ((a mod 60 / 10) mod 10 * 10 + (a mod 60) mod 10)%Z in
  ((if off <? 0 then - hh else hh) * 60 + mm)%Z.

(** The minutes that [minutesToDate] hands to [setHours], hours included. *)
Definition codeMinutes (minutes : R) : Z :=
  (Math_floor (minutes / 60) * 60 + Math_floor (remainder minutes 60))%Z.

(** The date that the specification asks of the conversion: local
    midnight of the base date plus the minutes, the fraction of a minute
    truncated toward zero. *)
Definition midnightPlusMinutes (LocalTZA : Z -> bool -> Z) (baseDate : Z)
    (minutes : R) : Z :=
  ES.UTC LocalTZA
    (ES.Day (ES.LocalTime LocalTZA baseDate) * ES.msPerDay
     + truncate minutes * ES.msPerMinute)%Z.

(** A date of the calendar, in the host's zone: year, month from 1 to 12,
    day of the month, and the milliseconds since local midnight. *)
Definition localDate (LocalTZA : Z -> bool -> Z)
    (year month day timeOfDay : Z) : Z :=
  ES.UTC LocalTZA (ES.MakeDate (ES.MakeDay year (month - 1) day) timeOfDay).

Definition validDate (year month day : Z) : Prop :=
  (1 <= month <= 12 /\
   1 <= day <= ES.daysInMonth (ES.isLeap year) (month - 1))%Z.

(** Ordinal of a day in its year, counted from 1: the lengths of the months
    before it, plus the day of the month. *)
Definition ordinalDay (year month day : Z) : Z :=
  (fold_right Z.add 0
     (map (ES.daysInMonth (ES.isLeap year))
          (firstn (Z.to_nat (month - 1)) [0; 1; 2; 3; 4; 5; 6; 7; 8; 9; 10; 11]))
   + day)%Z.

Definition validLocation (lat lng : R) : Prop :=
  (-90 <= lat <= 90 /\ -180 <= lng <= 180)%R.


(** A date on a whole minute, as the getters of the date show it. *)
Definition wholeMinute (LocalTZA : Z -> bool -> Z) (date : Z) : Prop :=
  ES.getSeconds LocalTZA date = 0%Z /\ ES.getMilliseconds LocalTZA date = 0%Z.


(** A zone three and a half hours west of Greenwich all year, as
    Newfoundland in winter: its zone string is ["-0330"]. *)
Definition halfHourWest : string -> Z -> Z := fun _ _ => (-210)%Z.

(** A zone ten hours west of Greenwich all year, as Honolulu. *)
Definition tenHoursWest : string -> Z -> Z := fun _ _ => (-600)%Z.


(** The errors the specification names, and the two ways a call can end.
    The script has no [throw] and tests no argument: a call of
    [getSunTimesAsDate], the specification's computeSolarInstants, returns. *)
Inductive Failure : Type := InvalidLocation | UnresolvableTimezone.

Inductive Completion (A : Type) : Type :=
  | Returns (a : A)
  | Throws (e : Failure).
Arguments Returns {A}.
Arguments Throws {A}.

Definition computeSolarInstants (LocalTZA : Z -> bool -> Z)
    (zoneOffset : string -> Z -> Z)
    (date : Z) (lat lng : R) (timezone : string)
  : Completion (option (SunDates Z)) :=
  Returns (getSunTimesAsDate LocalTZA zoneOffset date lat lng timezone).

(** * Properties *)

(** ** Time arithmetic *)

Module ESFacts.

Import ES.
Local Open Scope Z_scope.

Ltac div_lia := Z.to_euclidean_division_equations; lia.

Lemma DayFromYear_succ (y : Z) :
  DayFromYear (y + 1) = DayFromYear y + DaysInYear y.
Proof.
  unfold DayFromYear, DaysInYear, isLeap.
  destruct (y mod 4 =? 0) eqn:E4; destruct (y mod 100 =? 0) eqn:E100;
    destruct (y mod 400 =? 0) eqn:E400; cbn [andb orb negb];
    rewrite ?Z.eqb_eq, ?Z.eqb_neq in *; div_lia.
Qed.

Lemma DaysInYear_bounds (y : Z) : 365 <= DaysInYear y <= 366.
Proof. unfold DaysInYear; destruct (isLeap y); lia. Qed.

(** [YearFromDay] finds the year whose days contain [d]. *)
Lemma YearFromDay_unique (d y : Z) :
  DayFromYear y <= d < DayFromYear (y + 1) -> YearFromDay d = y.
Proof.
  unfold YearFromDay. cbv zeta.
  set (g := 1970 + d * 400 / 146097).
  intros H.
  assert (Hg : y - 1 <= g <= y + 1).
  { subst g. unfold DayFromYear in H. div_lia. }
  assert (Hm1 : DayFromYear (y - 1) < DayFromYear y).
  { replace y with (y - 1 + 1) at 2 by lia. rewrite DayFromYear_succ.
    pose proof (DaysInYear_bounds (y - 1)). lia. }
  assert (Hp1 : DayFromYear (y + 1) < DayFromYear (y + 1 + 1)).
  { rewrite (DayFromYear_succ (y + 1)).
    pose proof (DaysInYear_bounds (y + 1)). lia. }
  assert (Hc : g = y - 1 \/ g = y \/ g = y + 1) by lia.
  destruct Hc as [-> | [-> | ->]].
  - replace (y - 1 + 1) with y by lia.
    destruct (d <? DayFromYear (y - 1)) eqn:E1; [apply Z.ltb_lt in E1; lia |].
    destruct (DayFromYear y <=? d) eqn:E2; [lia | apply Z.leb_gt in E2; lia].
  - destruct (d <? DayFromYear y) eqn:E1; [apply Z.ltb_lt in E1; lia |].
    destruct (DayFromYear (y + 1) <=? d) eqn:E2;
      [apply Z.leb_le in E2; lia | reflexivity].
  - destruct (d <? DayFromYear (y + 1)) eqn:E1;
      [lia | apply Z.ltb_ge in E1; lia].
Qed.

(** It is the largest year that starts on or before [d], as the language
    defines [YearFromTime]. *)
Lemma YearFromDay_bounds (d : Z) :
  DayFromYear (YearFromDay d) <= d < DayFromYear (YearFromDay d + 1).
Proof.
  unfold YearFromDay. cbv zeta.
  set (g := 1970 + d * 400 / 146097).
  assert (Hg : DayFromYear (g - 1) <= d < DayFromYear (g + 1 + 1)).
  { subst g. unfold DayFromYear. div_lia. }
  destruct (d <? DayFromYear g) eqn:E1.
  - apply Z.ltb_lt in E1. replace (g - 1 + 1) with g by lia. lia.
  - apply Z.ltb_ge in E1.
    destruct (DayFromYear (g + 1) <=? d) eqn:E2.
    + apply Z.leb_le in E2. lia.
    + apply Z.leb_gt in E2. lia.
Qed.

Lemma daysBeforeMonth_bounds (leap : bool) (mn date : Z) :
  0 <= mn <= 11 -> 1 <= date <= daysInMonth leap mn ->
  0 <= daysBeforeMonth leap mn + date - 1 < (if leap then 366 else 365).
Proof.
  intros Hm Hd.
  assert (Hc : mn = 0 \/ mn = 1 \/ mn = 2 \/ mn = 3 \/ mn = 4 \/ mn = 5 \/
               mn = 6 \/ mn = 7 \/ mn = 8 \/ mn = 9 \/ mn = 10 \/ mn = 11)
    by lia.
  destruct leap;
    repeat (destruct Hc as [-> | Hc]); try subst mn;
    cbv beta iota zeta delta [daysBeforeMonth daysInMonth] in Hd |- *; lia.
Qed.

(** A day made from a year, a month from 0 to 11 and a day of that month
    lies in that year. *)
Lemma MakeDay_in_year (y mn date : Z) :
  0 <= mn <= 11 -> 1 <= date <= daysInMonth (isLeap y) mn ->
  DayFromYear y <= MakeDay y mn date < DayFromYear (y + 1).
Proof.
  intros Hm Hd. unfold MakeDay. cbv zeta.
  replace (mn / 12) with 0 by div_lia.
  replace (mn mod 12) with mn by div_lia.
  rewrite Z.add_0_r, DayFromYear_succ. unfold DaysInYear.
  pose proof (daysBeforeMonth_bounds (isLeap y) mn date Hm Hd) as Hb.
  destruct (isLeap y); lia.
Qed.

Lemma Day_MakeDate (day time : Z) :
  0 <= time < msPerDay -> Day (MakeDate day time) = day.
Proof. unfold Day, MakeDate, msPerDay. intros H. div_lia. Qed.

(** The parts of a time value add up to it. *)
Lemma time_parts (t : Z) :
  t = Day t * msPerDay + HourFromTime t * msPerHour
      + MinFromTime t * msPerMinute + SecFromTime t * msPerSecond
      + msFromTime t.
Proof.
  unfold Day, HourFromTime, MinFromTime, SecFromTime, msFromTime,
    msPerDay, msPerHour, msPerMinute, msPerSecond.
  div_lia.
Qed.

Lemma LocalTime_fixed (tza t : Z) : LocalTime (fixed tza) t = t + tza.
Proof. reflexivity. Qed.

Lemma UTC_fixed (tza t : Z) : UTC (fixed tza) t = t - tza.
Proof. reflexivity. Qed.

Section HostZone.

Variable LocalTZA : Z -> bool -> Z.

(** [setHours] asks the host for the given time of the date's own local
    day. *)
Lemma setHours_eq (tv hour min sec ms : Z) :
  setHours LocalTZA tv hour min sec ms
  = UTC LocalTZA (Day (LocalTime LocalTZA tv) * msPerDay
                  + MakeTime hour min sec ms).
Proof. reflexivity. Qed.

(** Setting the minutes to the current minutes plus [k] asks the host for
    the local time of the date plus [k] minutes, also across hours and
    days. *)
Lemma setMinutes_local (tv k : Z) :
  setMinutes LocalTZA tv (getMinutes LocalTZA tv + k)
  = UTC LocalTZA (LocalTime LocalTZA tv + k * msPerMinute).
Proof.
  unfold setMinutes, getMinutes, MakeDate, MakeTime. cbv zeta.
  f_equal.
  pose proof (time_parts (LocalTime LocalTZA tv)) as Hp. lia.
Qed.

(** When the host has the offset [o] at the date and reads the local time
    [k] minutes later with it, the date moves by [k] minutes. *)
Lemma setMinutes_steady (o tv k : Z) :
  LocalTZA tv true = o ->
  LocalTZA (tv + k * msPerMinute + o) false = o ->
  setMinutes LocalTZA tv (getMinutes LocalTZA tv + k) = tv + k * msPerMinute.
Proof.
  intros H1 H2. rewrite setMinutes_local. unfold UTC, LocalTime.
  rewrite H1.
  replace (tv + o + k * msPerMinute) with (tv + k * msPerMinute + o) by lia.
  rewrite H2. lia.
Qed.

End HostZone.

Section FixedZone.

Variable tza : Z.

Local Abbreviation LocalTZA := (fixed tza).

Lemma LocalTime_UTC (t : Z) : LocalTime LocalTZA (UTC LocalTZA t) = t.
Proof. rewrite LocalTime_fixed, UTC_fixed. lia. Qed.

(** [setHours] puts the date at the given time of its own local day. *)
Lemma setHours_local (tv hour min sec ms : Z) :
  LocalTime LocalTZA (setHours LocalTZA tv hour min sec ms)
  = Day (LocalTime LocalTZA tv) * msPerDay + MakeTime hour min sec ms.
Proof. unfold setHours, MakeDate. cbv zeta. apply LocalTime_UTC. Qed.

(** Setting the minutes to the current minutes plus [k] moves the date by
    [k] minutes, also across hours and days. *)
Lemma setMinutes_shift (tv k : Z) :
  setMinutes LocalTZA tv (getMinutes LocalTZA tv + k) = tv + k * msPerMinute.
Proof. apply (setMinutes_steady LocalTZA tza); reflexivity. Qed.

End FixedZone.

Lemma whole_minute_shift (t k : Z) :
  SecFromTime t = 0 -> msFromTime t = 0 ->
  SecFromTime (t + k * msPerMinute) = 0 /\ msFromTime (t + k * msPerMinute) = 0.
Proof.
  unfold SecFromTime, msFromTime, msPerSecond, msPerMinute.
  intros H1 H2. split; div_lia.
Qed.

Lemma whole_minute_MakeTime (day hour min : Z) :
  SecFromTime (day * msPerDay + MakeTime hour min 0 0) = 0 /\
  msFromTime (day * msPerDay + MakeTime hour min 0 0) = 0.
Proof.
  unfold SecFromTime, msFromTime, MakeTime, msPerSecond, msPerMinute,
    msPerHour, msPerDay.
  split; div_lia.
Qed.

Lemma whole_minute_moved (x y : Z) :
  (y - x) mod msPerMinute = 0 ->
  SecFromTime x = 0 -> msFromTime x = 0 ->
  SecFromTime y = 0 /\ msFromTime y = 0.
Proof.
  unfold SecFromTime, msFromTime, msPerSecond, msPerMinute.
  intros H H1 H2. split; div_lia.
Qed.

End ESFacts.

(** ** The zone string and its parsing *)

Module StrFacts.

Import Str.
Local Open Scope Z_scope.

Ltac digit_cases n :=
  let H := fresh "Hd" in
  assert (H : n mod 10 = 0 \/ n mod 10 = 1 \/ n mod 10 = 2 \/ n mod 10 = 3 \/
              n mod 10 = 4 \/ n mod 10 = 5 \/ n mod 10 = 6 \/ n mod 10 = 7 \/
              n mod 10 = 8 \/ n mod 10 = 9)
    by (pose proof (Z.mod_pos_bound n 10); lia);
  unfold digit;
  repeat (destruct H as [H | H]; [rewrite H; reflexivity |]);
  rewrite H; reflexivity.

Lemma digitsValue_digit (acc : Z) (seen : bool) (n : Z) (s : string) :
  digitsValue acc seen (String (digit n) s)
  = digitsValue (10 * acc + n mod 10) true s.
Proof.
  cbn [digitsValue].
  assert (Hi : isDigit (digit n) = true) by digit_cases n.
  assert (Hv : Z.of_nat (nat_of_ascii (digit n)) - 48 = n mod 10)
    by digit_cases n.
  rewrite Hi, Hv. reflexivity.
Qed.

Lemma parseInt_digit (n : Z) (s : string) :
  parseInt (String (digit n) s) = digitsValue (n mod 10) true s.
Proof.
  assert (Hw : isWhite (digit n) = false) by digit_cases n.
  unfold parseInt. cbn [skipWhite]. rewrite Hw.
  digit_cases n.
Qed.

Example formatOffset_east : formatOffset 180 = "+0300"%string.
Proof. reflexivity. Qed.

Example formatOffset_west : formatOffset (-210) = "-0330"%string.
Proof. reflexivity. Qed.

Example parseInt_hours_west : parseInt (slice "-0330" 0 3) = Some (-3).
Proof. reflexivity. Qed.

Example parseInt_minutes_west : parseInt (sliceFrom "-0330" 3) = Some 30.
Proof. reflexivity. Qed.

Example parseInt_no_digit : parseInt "GMT" = None.
Proof. reflexivity. Qed.

Lemma parseInt_minus (s : string) :
  parseInt (String "-"%char s) = option_map Z.opp (digitsValue 0 false s).
Proof. reflexivity. Qed.

Lemma parseInt_plus (s : string) :
  parseInt (String "+"%char s) = digitsValue 0 false s.
Proof. reflexivity. Qed.

Lemma readOffset_nonneg (off : Z) :
  0 <= off < 6000 -> readOffset off = off.
Proof.
  unfold readOffset. cbv zeta. intros H.
  destruct (off <? 0) eqn:E; [apply Z.ltb_lt in E; lia |].
  rewrite Z.abs_eq by lia.
  Z.to_euclidean_division_equations; lia.
Qed.

Lemma readOffset_neg (off : Z) :
  -6000 < off < 0 -> readOffset off = off + 2 * ((- off) mod 60).
Proof.
  unfold readOffset. cbv zeta. intros H.
  destruct (off <? 0) eqn:E; [| apply Z.ltb_ge in E; lia].
  rewrite Z.abs_neq by lia.
  Z.to_euclidean_division_equations; lia.
Qed.

End StrFacts.

(** ** Floor, truncation and remainder *)

Module NumFacts.

Local Open Scope R_scope.

Lemma truncate_nonneg (x : R) : 0 <= x -> truncate x = Zfloor x.
Proof. intros H. unfold truncate. destruct (Rle_dec 0 x); [reflexivity | lra]. Qed.

Lemma truncate_neg (x : R) : x < 0 -> truncate x = Zceil x.
Proof. intros H. unfold truncate. destruct (Rle_dec 0 x); [lra | reflexivity]. Qed.

Lemma truncate_IZR (z : Z) : truncate (IZR z) = z.
Proof.
  unfold truncate. destruct (Rle_dec 0 (IZR z)).
  - apply ZfloorZ.
  - unfold Zceil. rewrite ZfloorNZ. lia.
Qed.

(** Off the integers the ceiling is one above the floor. *)
Lemma Zceil_floor_succ (x : R) :
  IZR (Zfloor x) <> x -> Zceil x = (Zfloor x + 1)%Z.
Proof.
  intros Hn. pose proof (Zfloor_bound x) as Hb.
  apply Zceil_eq. rewrite plus_IZR. lra.
Qed.

Lemma Zfloor_sub_IZR (x : R) (z : Z) : Zfloor (x - IZR z) = (Zfloor x - z)%Z.
Proof.
  replace (x - IZR z) with (x + IZR (- z)) by (rewrite opp_IZR; lra).
  rewrite Zfloor_addz. lia.
Qed.

Lemma remainder_60 (m : R) (q : Z) :
  truncate (m / 60) = q -> remainder m 60 = m - IZR (60 * q).
Proof. intros H. unfold remainder. rewrite H, mult_IZR. reflexivity. Qed.

(** From midnight on, the hours and minutes together are the floor of the
    minutes. *)
Lemma codeMinutes_nonneg (m : R) : 0 <= m -> codeMinutes m = Zfloor m.
Proof.
  intros H. unfold codeMinutes, Math_floor.
  rewrite (remainder_60 m (Zfloor (m / 60))).
  - rewrite Zfloor_sub_IZR. lia.
  - apply truncate_nonneg. lra.
Qed.

(** A whole number of hours is kept, whatever its sign. *)
Lemma codeMinutes_hours (k : Z) : codeMinutes (IZR (60 * k)) = (60 * k)%Z.
Proof.
  unfold codeMinutes, Math_floor.
  assert (Hq : IZR (60 * k) / 60 = IZR k) by (rewrite mult_IZR; field).
  rewrite (remainder_60 _ k) by (rewrite Hq; apply truncate_IZR).
  rewrite Hq, ZfloorZ.
  replace (IZR (60 * k) - IZR (60 * k)) with (IZR 0) by lra.
  rewrite ZfloorZ. lia.
Qed.

(** Before midnight, off the whole hours, the result is a full hour too
    early: the hours are rounded down, the remainder keeps the sign of the
    minutes. *)
Lemma codeMinutes_neg (m : R) :
  m < 0 -> IZR (Zfloor (m / 60)) <> m / 60 ->
  codeMinutes m = (Zfloor m - 60)%Z.
Proof.
  intros H Hn. unfold codeMinutes, Math_floor.
  rewrite (remainder_60 m (Zfloor (m / 60) + 1)).
  - rewrite Zfloor_sub_IZR. lia.
  - rewrite truncate_neg by lra. apply Zceil_floor_succ. exact Hn.
Qed.

End NumFacts.

(** ** The day of the year *)

Section DayOfYearFacts.

Variable tza : Z.

Local Abbreviation LocalTZA := (ES.fixed tza).

Lemma ordinalDay_eq (year month day : Z) :
  (1 <= month <= 12)%Z ->
  ordinalDay year month day
  = (ES.daysBeforeMonth (ES.isLeap year) (month - 1) + day)%Z.
Proof.
  intros H. unfold ordinalDay.
  assert (Hc : (month = 1 \/ month = 2 \/ month = 3 \/ month = 4 \/
                month = 5 \/ month = 6 \/ month = 7 \/ month = 8 \/
                month = 9 \/ month = 10 \/ month = 11 \/ month = 12)%Z)
    by lia.
  destruct (ES.isLeap year);
    repeat (destruct Hc as [-> | Hc]); try subst month; reflexivity.
Qed.

Lemma getFullYear_localDate (year month day timeOfDay : Z) :
  validDate year month day -> (0 <= timeOfDay < ES.msPerDay)%Z ->
  ES.getFullYear LocalTZA (localDate LocalTZA year month day timeOfDay) = year.
Proof.
  intros [Hm Hd] Ht. unfold ES.getFullYear, localDate, ES.YearFromTime.
  rewrite ESFacts.LocalTime_UTC, ESFacts.Day_MakeDate by exact Ht.
  apply ESFacts.YearFromDay_unique, ESFacts.MakeDay_in_year; [lia | exact Hd].
Qed.

(** Outside the years 0 to 99 the script's day of the year is the ordinal
    of the day in its year, at any time of the day. *)
Lemma dayOfYear_ordinal (year month day timeOfDay : Z) :
  validDate year month day -> (0 <= timeOfDay < ES.msPerDay)%Z ->
  (year < 0 \/ 99 < year)%Z ->
  dayOfYear LocalTZA (localDate LocalTZA year month day timeOfDay)
  = ordinalDay year month day.
Proof.
  intros Hv Ht Hy. unfold dayOfYear. cbv zeta.
  rewrite getFullYear_localDate by assumption.
  destruct Hv as [Hm Hd]. rewrite ordinalDay_eq by exact Hm.
  unfold ES.newDate. cbv zeta.
  replace ((0 <=? year)%Z && (year <=? 99)%Z) with false
    by (symmetry; apply andb_false_iff; rewrite Z.leb_gt, Z.leb_gt; lia).
  unfold localDate. rewrite !ESFacts.UTC_fixed.
  unfold ES.MakeDate, ES.MakeDay, ES.MakeTime. cbv zeta.
  replace ((month - 1) / 12)%Z with 0%Z
    by (Z.to_euclidean_division_equations; lia).
  replace ((month - 1) mod 12)%Z with (month - 1)%Z
    by (Z.to_euclidean_division_equations; lia).
  change (0 / 12)%Z with 0%Z. change (0 mod 12)%Z with 0%Z.
  rewrite !Z.add_0_r.
  change (ES.daysBeforeMonth (ES.isLeap year) 0) with 0%Z.
  unfold ES.msPerDay in Ht |- *.
  change (1000 * 60 * 60 * 24)%Z with 86400000%Z.
  Z.to_euclidean_division_equations; lia.
Qed.

(** The summer solstice of 2024, a leap year. *)
Example ordinalDay_solstice : ordinalDay 2024 6 21 = 173%Z.
Proof. reflexivity. Qed.

(** C9: the day of the year should be the ordinal of the date in its year,
    1 for the first of January.  For the first of January of the year 50
    the script computes -693959: [new Date(50, 0, 0)] is the last day of
    1949, not of the year 49, as years from 0 to 99 stand for 1900 to
    1999. *)
Theorem dayOfYear_two_digit_year :
  dayOfYear LocalTZA (localDate LocalTZA 50 1 1 0) = (-693959)%Z /\
  ordinalDay 50 1 1 = 1%Z.
Proof.
  split; [| reflexivity].
  unfold dayOfYear. cbv zeta.
  rewrite getFullYear_localDate;
    [| unfold validDate; cbn; lia | unfold ES.msPerDay; lia].
  unfold ES.newDate, localDate. cbv zeta.
  change ((0 <=? 50)%Z && (50 <=? 99)%Z) with true. cbv iota.
  rewrite !ESFacts.UTC_fixed.
  set (a := ES.MakeDate (ES.MakeDay 50 (1 - 1) 1) 0).
  set (b := ES.MakeDate (ES.MakeDay (1900 + 50) 0 0) (ES.MakeTime 0 0 0 0)).
  replace (a - tza - (b - tza))%Z with (a - b)%Z by lia.
  subst a b. vm_compute. reflexivity.
Qed.

End DayOfYearFacts.

(** ** The script, dates by value *)

Section ScriptFacts.

Variable LocalTZA : Z -> bool -> Z.
Variable zoneOffset : string -> Z -> Z.

Local Abbreviation local := (ES.LocalTime LocalTZA).
Local Abbreviation midnight d :=
  (ES.Day (ES.LocalTime LocalTZA d) * ES.msPerDay)%Z.

(** The zone string always parses, to [readOffset] of the zone's offset. *)
Lemma tzOffsetMinutes_eq (date : Z) (timezone : string) :
  tzOffsetMinutes zoneOffset date timezone
  = Some (readOffset (zoneOffset timezone date)).
Proof.
  unfold tzOffsetMinutes, formatDate_Z, Str.formatOffset, Str.twoDigits.
  cbv zeta.
  set (off := zoneOffset timezone date).
  set (a := Z.abs off).
  cbn [append Str.slice Str.sliceFrom substring String.length Nat.sub].
  rewrite StrFacts.parseInt_digit, StrFacts.digitsValue_digit.
  cbn [Str.digitsValue].
  unfold readOffset. cbv zeta. fold a.
  destruct (off <? 0)%Z eqn:E.
  - rewrite StrFacts.parseInt_minus, !StrFacts.digitsValue_digit.
    cbn [Str.digitsValue option_map]. f_equal. lia.
  - rewrite StrFacts.parseInt_plus, !StrFacts.digitsValue_digit.
    cbn [Str.digitsValue option_map]. f_equal. lia.
Qed.

Lemma limit_range (x : R) : (-1 <= limit x <= 1)%R.
Proof.
  unfold limit.
  destruct (Rgt_dec x 1) as [H1 | H1];
    [destruct (Rlt_dec 1 (-1)) | destruct (Rlt_dec x (-1))]; lra.
Qed.

Lemma limit_inside (x : R) : (-1 <= x <= 1)%R -> limit x = x.
Proof.
  intros H. unfold limit.
  destruct (Rgt_dec x 1); [lra |]. destruct (Rlt_dec x (-1)); [lra | reflexivity].
Qed.

Lemma limit_high (x : R) : (1 <= x)%R -> limit x = 1%R.
Proof.
  intros H. unfold limit.
  destruct (Rgt_dec x 1) as [H1 | H1].
  - destruct (Rlt_dec 1 (-1)); [lra | reflexivity].
  - destruct (Rlt_dec x (-1)); lra.
Qed.


(** [Math.acos] gives a number on the numbers from -1 to 1, and on no
    other. *)
Lemma Math_acos_inside (x : R) :
  (-1 <= x <= 1)%R -> Math_acos x = Some (acos x).
Proof.
  intros [H1 H2]. unfold Math_acos.
  destruct (Rle_dec (-1) x); [| lra].
  destruct (Rle_dec x 1); [reflexivity | lra].
Qed.

Lemma Math_acos_outside (x : R) :
  (x < -1 \/ 1 < x)%R -> Math_acos x = None.
Proof.
  intros H. unfold Math_acos.
  destruct (Rle_dec (-1) x); [| reflexivity].
  destruct (Rle_dec x 1); [lra | reflexivity].
Qed.

Lemma Math_acos_limit (x : R) : Math_acos (limit x) = Some (acos (limit x)).
Proof. apply Math_acos_inside, limit_range. Qed.


Lemma getSunTimes_eq (date : Z) (lat lng : R) (timezone : string) :
  let g := gamma (dayOfYear LocalTZA date) in
  let n := solarNoonMinutes lng (eqTime g) (readOffset (zoneOffset timezone date)) in
  let h := hourAngleMinutes (cosH lat (decl g)) in
  getSunTimes LocalTZA zoneOffset date lat lng timezone
  = Some {| sunrise := n - h; solarNoon := n; sunset := n + h |}.
Proof.
  cbv zeta. unfold getSunTimes. rewrite tzOffsetMinutes_eq. cbv zeta.
  rewrite Math_acos_limit. reflexivity.
Qed.

(** The hour angle lies between 0 and 720 minutes. *)
Lemma hourAngleMinutes_range (x : R) : (0 <= hourAngleMinutes x <= 720)%R.
Proof.
  unfold hourAngleMinutes, haMinutes.
  pose proof (acos_bound (limit x)) as [H0 H1].
  pose proof PI_RGT_0 as Hpi.
  replace (acos (limit x) * 180 / PI * 4)%R
    with (720 * (acos (limit x) / PI))%R by (field; lra).
  assert (Hq : (0 <= acos (limit x) / PI <= 1)%R).
  { split.
    - apply Rmult_le_pos; [exact H0 | left; apply Rinv_0_lt_compat; lra].
    - apply (Rmult_le_reg_r PI); [lra |].
      unfold Rdiv. rewrite Rmult_assoc, Rinv_l by lra. lra. }
  lra.
Qed.

Lemma hourAngleMinutes_high (x : R) : (1 <= x)%R -> hourAngleMinutes x = 0%R.
Proof.
  intros H. unfold hourAngleMinutes, haMinutes.
  rewrite limit_high by exact H. rewrite acos_1.
  unfold Rdiv. rewrite !Rmult_0_l. reflexivity.
Qed.


(** In minutes, sunrise is not after solar noon, nor solar noon after sunset. *)
Lemma getSunTimes_ordered (date : Z) (lat lng : R) (timezone : string) :
  exists times,
    getSunTimes LocalTZA zoneOffset date lat lng timezone = Some times /\
    (sunrise times <= solarNoon times <= sunset times)%R.
Proof.
  eexists. split; [apply getSunTimes_eq |]. cbn [sunrise solarNoon sunset].
  pose proof (hourAngleMinutes_range
                (cosH lat (decl (gamma (dayOfYear LocalTZA date))))). lra.
Qed.

(** [minutesToDate] asks the host for the local midnight of the base date
    plus the minutes handed to [setHours]. *)
Lemma minutesToDate_eq (baseDate : Z) (minutes : R) :
  minutesToDate LocalTZA baseDate minutes
  = ES.UTC LocalTZA (midnight baseDate + codeMinutes minutes * ES.msPerMinute)%Z.
Proof.
  unfold minutesToDate. cbv zeta. rewrite ESFacts.setHours_eq. f_equal.
  unfold codeMinutes, ES.MakeTime, ES.msPerHour, ES.msPerMinute, ES.msPerSecond.
  lia.
Qed.

(** From midnight on (also past the end of the day) the conversion is the
    one the specification describes. *)
Lemma minutesToDate_from_midnight (baseDate : Z) (minutes : R) :
  (0 <= minutes)%R ->
  minutesToDate LocalTZA baseDate minutes
  = midnightPlusMinutes LocalTZA baseDate minutes.
Proof.
  intros H. rewrite minutesToDate_eq. unfold midnightPlusMinutes.
  rewrite NumFacts.codeMinutes_nonneg, NumFacts.truncate_nonneg by exact H.
  reflexivity.
Qed.

(** Before midnight, off the whole hours, the date is an hour earlier than
    the floor of the minutes. *)
Lemma minutesToDate_hour_early (baseDate : Z) (minutes : R) :
  (minutes < 0)%R -> IZR (Zfloor (minutes / 60)) <> (minutes / 60)%R ->
  minutesToDate LocalTZA baseDate minutes
  = ES.UTC LocalTZA
      (midnight baseDate + (Zfloor minutes - 60) * ES.msPerMinute)%Z.
Proof.
  intros H Hn. rewrite minutesToDate_eq.
  rewrite NumFacts.codeMinutes_neg by assumption. reflexivity.
Qed.

(** The conversion looks at the local day of the base date only. *)
Lemma minutesToDate_same_day (date1 date2 : Z) (minutes : R) :
  ES.Day (local date1) = ES.Day (local date2) ->
  minutesToDate LocalTZA date1 minutes = minutesToDate LocalTZA date2 minutes.
Proof. intros H. rewrite !minutesToDate_eq, H. reflexivity. Qed.

(** [shifted] asks the host for the local time of the date plus the
    minutes. *)
Lemma shifted_local (date k : Z) :
  shifted LocalTZA date k
  = ES.UTC LocalTZA (local date + k * ES.msPerMinute)%Z.
Proof. unfold shifted. apply ESFacts.setMinutes_local. Qed.

(** Where the host has one offset at the date and at the date plus the
    minutes, the date moves by these minutes. *)
Lemma shifted_steady (o date k : Z) :
  steady LocalTZA o date ->
  steady LocalTZA o (date + k * ES.msPerMinute)%Z ->
  shifted LocalTZA date k = (date + k * ES.msPerMinute)%Z.
Proof.
  intros [H1 _] [_ H2]. unfold shifted.
  apply (ESFacts.setMinutes_steady LocalTZA o); assumption.
Qed.


(** *** The conversion before midnight *)

Lemma codeMinutes_minus_30 : codeMinutes (-30) = (-90)%Z.
Proof.
  assert (Hf : Zfloor (-30 / 60) = (-1)%Z) by (apply Zfloor_eq; lra).
  rewrite NumFacts.codeMinutes_neg.
  - replace (-30)%R with (IZR (-30)) by lra. rewrite ZfloorZ. reflexivity.
  - lra.
  - rewrite Hf. lra.
Qed.

Lemma codeMinutes_minus_60 : codeMinutes (-60) = (-60)%Z.
Proof.
  replace (-60)%R with (IZR (60 * -1)) by (rewrite mult_IZR; lra).
  apply NumFacts.codeMinutes_hours.
Qed.

Lemma truncate_minus_30 : truncate (-30) = (-30)%Z.
Proof. replace (-30)%R with (IZR (-30)) by lra. apply NumFacts.truncate_IZR. Qed.

(** *** Locations out of range *)

(** C3, amended: the script tests neither latitude nor longitude.  For
    every latitude and longitude, those outside [-90, 90] and [-180, 180]
    included, the call returns three instants; it never fails with
    InvalidLocation. *)
Theorem computeSolarInstants_returns
    (date : Z) (lat lng : R) (timezone : string) :
  (exists sunTimes,
     computeSolarInstants LocalTZA zoneOffset date lat lng timezone
     = Returns (Some sunTimes)) /\
  computeSolarInstants LocalTZA zoneOffset date lat lng timezone
  <> Throws InvalidLocation.
Proof.
  unfold computeSolarInstants, getSunTimesAsDate. rewrite getSunTimes_eq.
  cbv zeta. split; [eexists; reflexivity | discriminate].
Qed.

(** *** The hour angle *)


(** *** Solar noon *)

(** For a zone on or east of Greenwich, solar noon is 720 minus four
    minutes per degree of longitude, minus the equation of time, plus the
    zone's offset. *)
Lemma solarNoon_east (date : Z) (lat lng : R) (timezone : string) :
  (0 <= zoneOffset timezone date < 6000)%Z ->
  exists times,
    getSunTimes LocalTZA zoneOffset date lat lng timezone = Some times /\
    solarNoon times
    = (720 - 4 * lng - eqTime (gamma (dayOfYear LocalTZA date))
       + IZR (zoneOffset timezone date))%R.
Proof.
  intros H. eexists. split; [apply getSunTimes_eq |].
  cbn [solarNoon]. unfold solarNoonMinutes.
  rewrite StrFacts.readOffset_nonneg by exact H. reflexivity.
Qed.

(** *** Whole minutes *)

Lemma wholeMinute_UTC (x : Z) :
  wholeMinuteChanges LocalTZA ->
  ES.SecFromTime x = 0%Z -> ES.msFromTime x = 0%Z ->
  wholeMinute LocalTZA (ES.UTC LocalTZA x).
Proof.
  intros Hw H1 H2. unfold wholeMinute, ES.getSeconds, ES.getMilliseconds.
  apply (ESFacts.whole_minute_moved x); [apply Hw | exact H1 | exact H2].
Qed.

Lemma minutesToDate_wholeMinute (baseDate : Z) (minutes : R) :
  wholeMinuteChanges LocalTZA ->
  wholeMinute LocalTZA (minutesToDate LocalTZA baseDate minutes).
Proof.
  intros Hw. unfold minutesToDate. cbv zeta. rewrite ESFacts.setHours_eq.
  apply wholeMinute_UTC; [exact Hw | |];
    apply ESFacts.whole_minute_MakeTime.
Qed.

Lemma shifted_wholeMinute (date k : Z) :
  wholeMinuteChanges LocalTZA ->
  wholeMinute LocalTZA date -> wholeMinute LocalTZA (shifted LocalTZA date k).
Proof.
  intros Hw [H1 H2]. rewrite shifted_local.
  unfold ES.getSeconds, ES.getMilliseconds in H1, H2.
  apply wholeMinute_UTC; [exact Hw | |];
    apply ESFacts.whole_minute_shift; assumption.
Qed.

(** *** The periods *)

Variable c : Constants.

Local Abbreviation minutes k := (k * ES.msPerMinute)%Z.






End ScriptFacts.

(** ** A host whose zone keeps one offset *)

Section FixedHostFacts.

Variable tza : Z.
Variable zoneOffset : string -> Z -> Z.

Local Abbreviation LocalTZA := (ES.fixed tza).
Local Abbreviation local := (ES.LocalTime LocalTZA).
Local Abbreviation midnight d :=
  (ES.Day (ES.LocalTime LocalTZA d) * ES.msPerDay)%Z.

Lemma steady_fixed (t : Z) : steady LocalTZA tza t.
Proof. split; reflexivity. Qed.

Lemma shown_fixed (t : Z) : shown LocalTZA t.
Proof. apply ESFacts.LocalTime_UTC. Qed.

Lemma wholeMinuteChanges_fixed : wholeMinuteChanges LocalTZA.
Proof. intros x. rewrite ESFacts.LocalTime_UTC, Z.sub_diag. reflexivity. Qed.

(** [minutesToDate] in local time: the midnight of the base date plus the
    minutes handed to [setHours]. *)
Lemma minutesToDate_local (baseDate : Z) (minutes : R) :
  local (minutesToDate LocalTZA baseDate minutes)
  = (midnight baseDate + codeMinutes minutes * ES.msPerMinute)%Z.
Proof. rewrite minutesToDate_eq. apply ESFacts.LocalTime_UTC. Qed.

(** From midnight on the conversion keeps the order of the minutes. *)
Lemma minutesToDate_monotone (baseDate : Z) (m1 m2 : R) :
  (0 <= m1 <= m2)%R ->
  (minutesToDate LocalTZA baseDate m1 <= minutesToDate LocalTZA baseDate m2)%Z.
Proof.
  intros [H0 H12]. rewrite !minutesToDate_eq.
  rewrite !NumFacts.codeMinutes_nonneg by lra.
  pose proof (Zfloor_le m1 m2 H12).
  rewrite !ESFacts.UTC_fixed. unfold ES.msPerMinute. lia.
Qed.

(** When sunrise is not before local midnight, the three dates come in the
    order sunrise, solar noon, sunset. *)
Lemma getSunTimesAsDate_ordered (date : Z) (lat lng : R) (timezone : string) :
  exists times sunTimes,
    getSunTimes LocalTZA zoneOffset date lat lng timezone = Some times /\
    getSunTimesAsDate LocalTZA zoneOffset date lat lng timezone
    = Some sunTimes /\
    ((0 <= sunrise times)%R ->
     (sunriseDate sunTimes <= noon sunTimes <= sunsetDate sunTimes)%Z).
Proof.
  destruct (getSunTimes_ordered LocalTZA zoneOffset date lat lng timezone)
    as (times & Ht & Ho).
  unfold getSunTimesAsDate. rewrite Ht.
  eexists. eexists. split; [reflexivity |]. split; [reflexivity |].
  intros H0. cbn [sunriseDate noon sunsetDate].
  split; apply minutesToDate_monotone; lra.
Qed.

Lemma shifted_eq (date k : Z) :
  shifted LocalTZA date k = (date + k * ES.msPerMinute)%Z.
Proof. apply (shifted_steady LocalTZA tza); apply steady_fixed. Qed.

(** C2: for every real number of minutes, also below 0 and above 1440,
    [minutesToDate] should give local midnight of the base date plus the
    minutes, truncated to the minute.  At minutes = -30 it does not: the
    script asks [setHours] for hour -1 and minute -30, which is 90 minutes
    before midnight, one hour before the instant of the specification. *)
Theorem minutesToDate_before_midnight (baseDate : Z) :
  minutesToDate LocalTZA baseDate (-30)
  = ES.UTC LocalTZA (midnight baseDate - 90 * ES.msPerMinute)%Z /\
  midnightPlusMinutes LocalTZA baseDate (-30)
  = ES.UTC LocalTZA (midnight baseDate - 30 * ES.msPerMinute)%Z /\
  minutesToDate LocalTZA baseDate (-30)
  <> midnightPlusMinutes LocalTZA baseDate (-30).
Proof.
  rewrite minutesToDate_eq, codeMinutes_minus_30.
  unfold midnightPlusMinutes. rewrite truncate_minus_30.
  rewrite !ESFacts.UTC_fixed. unfold ES.msPerMinute. repeat split; lia.
Qed.

(** *** The periods *)

Variable c : Constants.

Local Abbreviation minutes k := (k * ES.msPerMinute)%Z.

Lemma calculateVedicTimes_bounds (sunTimes : SunDates Z) :
  let v := calculateVedicTimes LocalTZA zoneOffset c sunTimes in
  start (brahmaMuhurta v)
    = (sunriseDate sunTimes
       - minutes (BRAHMA_MUHURTA_MINUTES_BEFORE_SUNRISE c))%Z /\
  finish (brahmaMuhurta v)
    = (start (brahmaMuhurta v) + minutes (BRAHMA_MUHURTA_DURATION_MINUTES c))%Z /\
  start (morningSandhya v)
    = (sunriseDate sunTimes - minutes (SANDHYA_DURATION_MINUTES c))%Z /\
  finish (morningSandhya v)
    = (sunriseDate sunTimes + minutes (SANDHYA_DURATION_MINUTES c))%Z /\
  start (noonSandhya v)
    = (noon sunTimes - minutes (SANDHYA_DURATION_MINUTES c))%Z /\
  finish (noonSandhya v)
    = (start (noonSandhya v) + minutes (2 * SANDHYA_DURATION_MINUTES c))%Z /\
  start (eveningSandhya v)
    = (sunsetDate sunTimes - minutes (SANDHYA_DURATION_MINUTES c))%Z /\
  finish (eveningSandhya v)
    = (sunsetDate sunTimes + minutes (SANDHYA_DURATION_MINUTES c))%Z.
Proof.
  cbv zeta. unfold calculateVedicTimes. cbv zeta.
  cbn [start finish brahmaMuhurta morningSandhya noonSandhya eveningSandhya].
  rewrite !shifted_eq. unfold ES.msPerMinute. repeat split; lia.
Qed.


End FixedHostFacts.

(** ** Dates as objects: the store *)

Module ObjFacts.

Lemma bind_run {A B : Type} (m : Obj.M A) (f : A -> Obj.M B) (s s' : Obj.store) (a : A) :
  m s = (a, s') -> Obj.bind m f s = f a s'.
Proof. intros H. unfold Obj.bind. rewrite H. reflexivity. Qed.

Lemma nth_new (s : Obj.store) (v : Z) : nth (List.length s) (s ++ [v]) 0%Z = v.
Proof. rewrite app_nth2, Nat.sub_diag by lia. reflexivity. Qed.

Lemma nth_old (s ext : Obj.store) (d : Obj.ref) :
  (d < List.length s)%nat -> nth d (s ++ ext) 0%Z = nth d s 0%Z.
Proof. intros H. apply app_nth1. exact H. Qed.

Lemma update_new (s : Obj.store) (v w : Z) :
  Obj.update (List.length s) w (s ++ [v]) = s ++ [w].
Proof. induction s as [| x s IH]; cbn; [reflexivity | rewrite IH; reflexivity]. Qed.

Ltac in_store :=
  repeat rewrite length_app; cbn [List.length]; lia.

Ltac store_simpl :=
  repeat (rewrite nth_new || rewrite nth_old by in_store).

Section Script.

Variable LocalTZA : Z -> bool -> Z.
Variable zoneOffset : string -> Z -> Z.

(** Each function of the script that handles dates leaves the dates it is
    given as they are, adds new dates at the end of the store, and gives
    the dates that the function by value gives. *)

Lemma minutesToDate_run (s : Obj.store) (baseDate : Obj.ref) (minutes : R) :
  Obj.minutesToDate LocalTZA baseDate minutes s
  = (List.length s,
     s ++ [minutesToDate LocalTZA (nth baseDate s 0%Z) minutes]).
Proof.
  unfold Obj.minutesToDate, Obj.copyDate, Obj.setHours, Obj.valueOf,
    Obj.setValue, Obj.alloc, Obj.bind, Obj.ret.
  rewrite nth_new, update_new. reflexivity.
Qed.

Lemma shifted_run (s : Obj.store) (date : Obj.ref) (k : Z) :
  Obj.shifted LocalTZA date k s
  = (List.length s, s ++ [shifted LocalTZA (nth date s 0%Z) k]).
Proof.
  unfold Obj.shifted, Obj.copyDate, Obj.getMinutes, Obj.setMinutes,
    Obj.valueOf, Obj.setValue, Obj.alloc, Obj.bind, Obj.ret.
  rewrite !nth_new, update_new. reflexivity.
Qed.

Lemma getSunTimes_run (s : Obj.store) (date : Obj.ref) (lat lng : R) (timezone : string) :
  (date < List.length s)%nat ->
  Obj.getSunTimes LocalTZA zoneOffset date lat lng timezone s
  = (getSunTimes LocalTZA zoneOffset (nth date s 0%Z) lat lng timezone,
     s ++ [ES.newDate LocalTZA (ES.getFullYear LocalTZA (nth date s 0%Z)) 0 0]).
Proof.
  intros H.
  unfold Obj.getSunTimes, Obj.getFullYear, Obj.newDate, Obj.valueOf,
    Obj.alloc, Obj.bind, Obj.ret.
  rewrite nth_new, nth_old by exact H. reflexivity.
Qed.

Lemma getSunTimesAsDate_run
    (s : Obj.store) (date : Obj.ref) (lat lng : R) (timezone : string) :
  (date < List.length s)%nat ->
  exists r ext,
    Obj.getSunTimesAsDate LocalTZA zoneOffset date lat lng timezone s
    = (r, s ++ ext) /\
    match r, getSunTimesAsDate LocalTZA zoneOffset (nth date s 0%Z)
               lat lng timezone with
    | Some o, Some v =>
        (sunriseDate o < List.length (s ++ ext))%nat /\
        (noon o < List.length (s ++ ext))%nat /\
        (sunsetDate o < List.length (s ++ ext))%nat /\
        nth (sunriseDate o) (s ++ ext) 0%Z = sunriseDate v /\
        nth (noon o) (s ++ ext) 0%Z = noon v /\
        nth (sunsetDate o) (s ++ ext) 0%Z = sunsetDate v
    | None, None => True
    | _, _ => False
    end.
Proof.
  intros H. unfold Obj.getSunTimesAsDate, getSunTimesAsDate.
  rewrite (bind_run _ _ _ _ _ (getSunTimes_run s date lat lng timezone H)).
  destruct (getSunTimes LocalTZA zoneOffset (nth date s 0%Z) lat lng timezone)
    as [times |].
  - rewrite (bind_run _ _ _ _ _ (minutesToDate_run _ _ _)).
    rewrite (bind_run _ _ _ _ _ (minutesToDate_run _ _ _)).
    rewrite (bind_run _ _ _ _ _ (minutesToDate_run _ _ _)).
    unfold Obj.ret. store_simpl.
    eexists. eexists. split.
    + rewrite <- !app_assoc. reflexivity.
    + cbn [sunriseDate noon sunsetDate].
      rewrite !app_assoc. store_simpl.
      repeat split; try reflexivity; in_store.
  - unfold Obj.ret. eexists. eexists. split; [reflexivity | exact I].
Qed.

Variable c : Constants.

Lemma calculateVedicTimes_run (s : Obj.store) (o : SunDates Obj.ref) :
  (sunriseDate o < List.length s)%nat ->
  (noon o < List.length s)%nat ->
  (sunsetDate o < List.length s)%nat ->
  exists vt ext,
    Obj.calculateVedicTimes LocalTZA zoneOffset c o s = (vt, s ++ ext) /\
    Obj.readTimes (s ++ ext) vt
    = calculateVedicTimes LocalTZA zoneOffset c
        {| sunriseDate := nth (sunriseDate o) s 0%Z;
           noon := nth (noon o) s 0%Z;
           sunsetDate := nth (sunsetDate o) s 0%Z |}.
Proof.
  intros H1 H2 H3. unfold Obj.calculateVedicTimes.
  do 8 rewrite (bind_run _ _ _ _ _ (shifted_run _ _ _)).
  cbv beta iota zeta
    delta [Obj.describe Obj.formatTime Obj.valueOf Obj.bind Obj.ret].
  store_simpl.
  eexists. eexists. split.
  - rewrite <- !app_assoc. reflexivity.
  - unfold Obj.readTimes, Obj.readPeriod, calculateVedicTimes, describe,
      formatTime.
    cbn [start finish type description brahmaMuhurta morningSandhya
         noonSandhya eveningSandhya sunriseDate noon sunsetDate].
    rewrite !app_assoc. store_simpl. reflexivity.
Qed.

(** The calculation on objects gives what the calculation by value gives,
    and the store it leaves is the store it found with new dates at its
    end. *)
Lemma vedicTimesFor_run (s : Obj.store) (date : Obj.ref) :
  (date < List.length s)%nat ->
  exists r ext,
    Obj.vedicTimesFor LocalTZA zoneOffset c date s = (r, s ++ ext) /\
    option_map (Obj.readTimes (s ++ ext)) r
    = vedicTimesFor LocalTZA zoneOffset c (nth date s 0%Z).
Proof.
  intros H. unfold Obj.vedicTimesFor, vedicTimesFor.
  destruct (getSunTimesAsDate_run s date
              (LATITUDE c) (LONGITUDE c) (TIMEZONE c) H)
    as (r & ext & Hrun & Hr).
  rewrite (bind_run _ _ _ _ _ Hrun).
  destruct r as [o |];
    destruct (getSunTimesAsDate LocalTZA zoneOffset (nth date s 0%Z)
                (LATITUDE c) (LONGITUDE c) (TIMEZONE c)) as [v |];
    try contradiction.
  - destruct Hr as (L1 & L2 & L3 & E1 & E2 & E3).
    destruct (calculateVedicTimes_run (s ++ ext) o L1 L2 L3)
      as (vt & ext' & Hc & Hv).
    rewrite (bind_run _ _ _ _ _ Hc). unfold Obj.ret.
    exists (Some vt), (ext ++ ext'). rewrite app_assoc.
    split; [reflexivity |].
    cbn [option_map]. rewrite Hv, E1, E2, E3. destruct v; reflexivity.
  - unfold Obj.ret. exists None, ext. split; reflexivity.
Qed.

End Script.

(** C8: two runs of the whole calculation on the same day, place, zone and
    constants give the same result, in whatever stores they run: the result
    is the value of the calculation by value, a function of the inputs
    alone; and a run has no effect on the dates that exist before it: the
    store it leaves is the store it found, with new dates at its end. *)
Theorem vedicTimesFor_deterministic
    (LocalTZA : Z -> bool -> Z) (zoneOffset : string -> Z -> Z) (c : Constants)
    (s1 s2 : Obj.store) (d1 d2 : Obj.ref) (day : Z) :
  nth_error s1 d1 = Some day ->
  nth_error s2 d2 = Some day ->
  exists r1 r2 ext1 ext2,
    Obj.vedicTimesFor LocalTZA zoneOffset c d1 s1 = (r1, s1 ++ ext1) /\
    Obj.vedicTimesFor LocalTZA zoneOffset c d2 s2 = (r2, s2 ++ ext2) /\
    option_map (Obj.readTimes (s1 ++ ext1)) r1
    = option_map (Obj.readTimes (s2 ++ ext2)) r2 /\
    option_map (Obj.readTimes (s1 ++ ext1)) r1
    = vedicTimesFor LocalTZA zoneOffset c day.
Proof.
  intros H1 H2.
  assert (L1 : (d1 < List.length s1)%nat)
    by (apply nth_error_Some; rewrite H1; discriminate).
  assert (L2 : (d2 < List.length s2)%nat)
    by (apply nth_error_Some; rewrite H2; discriminate).
  destruct (vedicTimesFor_run LocalTZA zoneOffset c s1 d1 L1)
    as (r1 & ext1 & R1 & V1).
  destruct (vedicTimesFor_run LocalTZA zoneOffset c s2 d2 L2)
    as (r2 & ext2 & R2 & V2).
  rewrite (nth_error_nth s1 d1 0%Z H1) in V1.
  rewrite (nth_error_nth s2 d2 0%Z H2) in V2.
  exists r1, r2, ext1, ext2.
  repeat split; try assumption.
  rewrite V1, V2. reflexivity.
Qed.

End ObjFacts.

(** ** A short day beyond the polar circle *)

Module Twilight.

Local Open Scope R_scope.

Lemma PI_bounds : 3.1354 < PI < 3.1421.
Proof.
  pose proof (PI_2_3_7_ineq 0) as [L _].
  pose proof (PI_2_3_7_ineq 1) as [_ U].
  unfold sum_f_R0, tg_alt, PI_2_3_7_tg, Ratan_seq in L, U.
  cbn [Nat.mul Nat.add pow INR] in L, U.
  split; lra.
Qed.

Ltac inr_to_izr :=
  repeat match goal with
  | |- context [INR ?n] =>
      let z := eval vm_compute in (Z.of_nat n) in
      replace (INR n) with (IZR z) by (rewrite INR_IZR_INZ; reflexivity)
  end.

Lemma sin_lb_eq (a : R) :
  sin_lb a = a - a ^ 3 / 6 + a ^ 5 / 120 - a ^ 7 / 5040.
Proof.
  unfold sin_lb, sin_approx, sin_term, sum_f_R0.
  cbn [Nat.mul Nat.add pow]. inr_to_izr. field.
Qed.

Lemma sin_ub_eq (a : R) :
  sin_ub a = a - a ^ 3 / 6 + a ^ 5 / 120 - a ^ 7 / 5040 + a ^ 9 / 362880.
Proof.
  unfold sin_ub, sin_approx, sin_term, sum_f_R0.
  cbn [Nat.mul Nat.add pow]. inr_to_izr. field.
Qed.

Lemma cos_lb_eq (a : R) :
  cos_lb a = 1 - a ^ 2 / 2 + a ^ 4 / 24 - a ^ 6 / 720.
Proof.
  unfold cos_lb, cos_approx, cos_term, sum_f_R0.
  cbn [Nat.mul Nat.add pow]. inr_to_izr. field.
Qed.

Lemma cos_ub_eq (a : R) :
  cos_ub a = 1 - a ^ 2 / 2 + a ^ 4 / 24 - a ^ 6 / 720 + a ^ 8 / 40320.
Proof.
  unfold cos_ub, cos_approx, cos_term, sum_f_R0.
  cbn [Nat.mul Nat.add pow]. inr_to_izr. field.
Qed.

(** Sine and cosine between two rational arguments in the first quadrant. *)
Lemma sin_between (lo x hi : R) :
  0 <= lo -> lo <= x -> x <= hi -> hi <= 1.5 ->
  sin_lb lo <= sin x <= sin_ub hi.
Proof.
  intros H0 H1 H2 H3. pose proof PI_bounds as Hpi.
  split.
  - apply Rle_trans with (sin lo).
    + apply SIN; lra.
    + apply sin_incr_1; lra.
  - apply Rle_trans with (sin hi).
    + apply sin_incr_1; lra.
    + apply SIN; lra.
Qed.

Lemma cos_between (lo x hi : R) :
  0 <= lo -> lo <= x -> x <= hi -> hi <= 1.5 ->
  cos_lb hi <= cos x <= cos_ub lo.
Proof.
  intros H0 H1 H2 H3. pose proof PI_bounds as Hpi.
  split.
  - apply Rle_trans with (cos hi).
    + apply COS; lra.
    + apply cos_decr_1; lra.
  - apply Rle_trans with (cos lo).
    + apply cos_decr_1; lra.
    + apply COS; lra.
Qed.

Lemma lat_radians : 1.1749 <= 67.45 * rad <= 1.1775.
Proof. pose proof PI_bounds. unfold rad. lra. Qed.

Lemma refraction_radians : 0.0145 <= 0.833 * rad <= 0.01455.
Proof. pose proof PI_bounds. unfold rad. lra. Qed.

Lemma sin_lat : 0.9226 <= sin (67.45 * rad) <= 0.9237.
Proof.
  pose proof lat_radians as Hb.
  assert (H : sin_lb 1.1749 <= sin (67.45 * rad) <= sin_ub 1.1775)
    by (apply sin_between; lra).
  rewrite sin_lb_eq, sin_ub_eq in H. lra.
Qed.

Lemma cos_lat : 0.3831 <= cos (67.45 * rad) <= 0.3857.
Proof.
  pose proof lat_radians as Hb.
  assert (H : cos_lb 1.1775 <= cos (67.45 * rad) <= cos_ub 1.1749)
    by (apply cos_between; lra).
  rewrite cos_lb_eq, cos_ub_eq in H. lra.
Qed.

Lemma sin_decl : 0.39167 <= sin 0.402449 <= 0.39168.
Proof.
  assert (H : sin_lb 0.402449 <= sin 0.402449 <= sin_ub 0.402449)
    by (apply sin_between; lra).
  rewrite sin_lb_eq, sin_ub_eq in H. lra.
Qed.

Lemma cos_decl : 0.9201 <= cos 0.402449 <= 0.92011.
Proof.
  assert (H : cos_lb 0.402449 <= cos 0.402449 <= cos_ub 0.402449)
    by (apply cos_between; lra).
  rewrite cos_lb_eq, cos_ub_eq in H. lra.
Qed.

(** 90.833 degrees is a right angle and 0.833 degrees. *)
Lemma cos_refraction : -0.01455 <= cos (90.833 * rad) <= -0.014499.
Proof.
  pose proof refraction_radians as Ht.
  replace (90.833 * rad) with (PI / 2 + 0.833 * rad) by (unfold rad; lra).
  rewrite cos_plus, cos_PI2, sin_PI2.
  assert (H : sin_lb 0.0145 <= sin (0.833 * rad) <= sin_ub 0.01455)
    by (apply sin_between; lra).
  rewrite sin_lb_eq, sin_ub_eq in H. lra.
Qed.

(** The cosine of the hour angle at latitude 67.45 on the first of
    January. *)
Lemma cosH_twilight : 0.9662 < cosH 67.45 (-0.402449) < 0.99.
Proof.
  pose proof sin_lat as HS. pose proof cos_lat as HC.
  pose proof sin_decl as Hs. pose proof cos_decl as Hk.
  pose proof cos_refraction as HA.
  unfold cosH, tan.
  replace (-0.402449) with (- (0.402449)) by lra.
  rewrite cos_neg, sin_neg.
  set (A := cos (90.833 * rad)) in *.
  set (S := sin (67.45 * rad)) in *. set (C := cos (67.45 * rad)) in *.
  set (s := sin 0.402449) in *. set (k := cos 0.402449) in *.
  replace (A / (C * k) - S / C * (- s / k)) with ((A + S * s) / (C * k))
    by (field; lra).
  assert (HCk : 0.3831 * 0.9201 <= C * k <= 0.3857 * 0.92011) by nra.
  assert (HSs : 0.9226 * 0.39167 <= S * s <= 0.9237 * 0.39168) by nra.
  assert (Hpos : 0 < C * k) by lra.
  split.
  - apply (Rmult_lt_reg_r (C * k)); [exact Hpos |].
    unfold Rdiv. rewrite Rmult_assoc, Rinv_l by lra. lra.
  - apply (Rmult_lt_reg_r (C * k)); [exact Hpos |].
    unfold Rdiv. rewrite Rmult_assoc, Rinv_l by lra. lra.
Qed.

Lemma cos_PI12 : cos (PI / 12) <= 0.9662.
Proof.
  pose proof PI_bounds as Hpi.
  assert (H : cos_lb 0.27 <= cos (PI / 12) <= cos_ub 0.2612)
    by (apply cos_between; lra).
  rewrite cos_lb_eq, cos_ub_eq in H. lra.
Qed.

(** The hour angle there: more than nothing, less than an hour. *)
Lemma hourAngle_twilight :
  0 < hourAngleMinutes (cosH 67.45 (-0.402449)) < 60.
Proof.
  pose proof cosH_twilight as Hx. pose proof PI_bounds as Hpi.
  set (x := cosH 67.45 (-0.402449)) in *.
  unfold hourAngleMinutes, haMinutes. rewrite limit_inside by lra.
  assert (Ha : 0 < acos x < PI) by (apply acos_bound_lt; lra).
  assert (Hb : acos x < PI / 12).
  { destruct (Rlt_le_dec (acos x) (PI / 12)) as [Hlt | Hge]; [exact Hlt |].
    exfalso.
    assert (Hc : cos (acos x) <= cos (PI / 12)) by (apply cos_decr_1; lra).
    rewrite cos_acos in Hc by lra.
    pose proof cos_PI12. lra. }
  replace (acos x * 180 / PI * 4) with (720 * (acos x / PI)) by (field; lra).
  assert (Hq : 0 < acos x / PI < / 12).
  { split.
    - apply Rdiv_lt_0_compat; lra.
    - apply (Rmult_lt_reg_r PI); [lra |].
      unfold Rdiv. rewrite Rmult_assoc, Rinv_l by lra. lra. }
  lra.
Qed.

(** *** Eighty degrees north and south on the first of January *)

Lemma lat80_radians : 1.3935 <= 80 * rad <= 1.3965.
Proof. pose proof PI_bounds. unfold rad. lra. Qed.

Lemma sin_80 : 0.9842 <= sin (80 * rad) <= 0.9849.
Proof.
  pose proof lat80_radians as Hb.
  assert (H : sin_lb 1.3935 <= sin (80 * rad) <= sin_ub 1.3965)
    by (apply sin_between; lra).
  rewrite sin_lb_eq, sin_ub_eq in H. lra.
Qed.

Lemma cos_80 : 0.1730 <= cos (80 * rad) <= 0.1764.
Proof.
  pose proof lat80_radians as Hb.
  assert (H : cos_lb 1.3965 <= cos (80 * rad) <= cos_ub 1.3935)
    by (apply cos_between; lra).
  rewrite cos_lb_eq, cos_ub_eq in H. lra.
Qed.


(** In the north it does not rise: the cosine is above 1. *)
Lemma cosH_polar_night : 1 < cosH 80 (-0.402449).
Proof.
  pose proof sin_80 as HS. pose proof cos_80 as HC.
  pose proof sin_decl as Hs. pose proof cos_decl as Hk.
  pose proof cos_refraction as HA.
  unfold cosH, tan.
  replace (-0.402449) with (- (0.402449)) by lra.
  rewrite !cos_neg, !sin_neg.
  set (A := cos (90.833 * rad)) in *.
  set (S := sin (80 * rad)) in *. set (C := cos (80 * rad)) in *.
  set (s := sin 0.402449) in *. set (k := cos 0.402449) in *.
  replace (A / (C * k) - S / C * (- s / k)) with ((A + S * s) / (C * k))
    by (field; lra).
  assert (HCk : 0.1730 * 0.9201 <= C * k <= 0.1764 * 0.92011) by nra.
  assert (HSs : 0.9842 * 0.39167 <= S * s <= 0.9849 * 0.39168) by nra.
  assert (Hpos : 0 < C * k) by lra.
  apply (Rmult_lt_reg_r (C * k)); [exact Hpos |].
  unfold Rdiv. rewrite Rmult_assoc, Rinv_l by lra. lra.
Qed.

Lemma gamma_1 : gamma 1 = 0.
Proof. unfold gamma. lra. Qed.

Lemma eqTime_0 : eqTime 0 = -2.90416896.
Proof. unfold eqTime. rewrite Rmult_0_r, cos_0, sin_0. lra. Qed.

Lemma decl_0 : decl 0 = -0.402449.
Proof. unfold decl. rewrite !Rmult_0_r, cos_0, sin_0. lra. Qed.

End Twilight.

(** ** Instances *)

(** A store with one date, and one with another date before it. *)
Lemma vedicTimesFor_deterministic_witness :
  exists r1 r2 ext1 ext2,
    Obj.vedicTimesFor (ES.fixed 7200000) (fun _ _ => 120%Z) tallinn 0
      [1735725600000%Z] = (r1, [1735725600000%Z] ++ ext1) /\
    Obj.vedicTimesFor (ES.fixed 7200000) (fun _ _ => 120%Z) tallinn 1
      [0%Z; 1735725600000%Z] = (r2, [0%Z; 1735725600000%Z] ++ ext2) /\
    option_map (Obj.readTimes ([1735725600000%Z] ++ ext1)) r1
    = option_map (Obj.readTimes ([0%Z; 1735725600000%Z] ++ ext2)) r2 /\
    option_map (Obj.readTimes ([1735725600000%Z] ++ ext1)) r1
    = vedicTimesFor (ES.fixed 7200000) (fun _ _ => 120%Z) tallinn
        1735725600000.
Proof.
  apply (ObjFacts.vedicTimesFor_deterministic (ES.fixed 7200000)
           (fun _ _ => 120%Z)
           tallinn [1735725600000%Z] [0%Z; 1735725600000%Z] 0 1
           1735725600000); reflexivity.
Defined.

(** C6: solar noon should be 720 minus four minutes per degree of
    longitude, minus the equation of time, plus the UTC offset of the zone.
    For a zone at -03:30, whose offset is -210 minutes, the script adds
    -150: it reads the zone string ["-0330"] as -3 hours plus 30 minutes. *)
Theorem solarNoon_half_hour_west
    (LocalTZA : Z -> bool -> Z) (date : Z) (lat lng : R) (timezone : string) :
  let e := eqTime (gamma (dayOfYear LocalTZA date)) in
  exists times,
    getSunTimes LocalTZA halfHourWest date lat lng timezone = Some times /\
    solarNoon times = (720 - 4 * lng - e + -150)%R /\
    solarNoon times
    <> (720 - 4 * lng - e + IZR (halfHourWest timezone date))%R.
Proof.
  cbv zeta. eexists. split; [apply getSunTimes_eq |].
  cbn [solarNoon]. unfold solarNoonMinutes, halfHourWest.
  change (readOffset (-210)) with (-150)%Z.
  split; [reflexivity | lra].
Qed.

(** Latitude 91 and longitude 200 are out of range, and the call returns. *)
Lemma latitude_91_returns :
  ~ validLocation 91 200 /\
  exists sunTimes,
    computeSolarInstants (ES.fixed 7200000) (fun _ _ => 120%Z)
      1735725600000 91 200
      "Europe/Tallinn" = Returns (Some sunTimes).
Proof.
  split.
  - unfold validLocation. lra.
  - unfold computeSolarInstants, getSunTimesAsDate. rewrite getSunTimes_eq.
    cbv zeta. eexists. reflexivity.
Qed.



(** C1: for every valid date, latitude, longitude and zone the three
    instants should come in the order sunrise, solar noon, sunset.  On the
    first of January 2025, at latitude 67.45 and longitude 45.72604224,
    with the zone ten hours west of Greenwich, solar noon falls 60 minutes
    before local midnight and sunset less than an hour later, still before
    midnight: the conversion keeps the whole hour of solar noon and moves
    sunset an hour back, so that the date of sunset lies before the date of
    solar noon. *)
Theorem sunset_before_noon (tza : Z) :
  validDate 2025 1 1 /\
  validLocation 67.45 45.72604224 /\
  exists sunTimes,
    getSunTimesAsDate (ES.fixed tza) tenHoursWest
      (localDate (ES.fixed tza) 2025 1 1 0)
      67.45 45.72604224 "Pacific/Honolulu" = Some sunTimes /\
    (sunsetDate sunTimes < noon sunTimes)%Z.
Proof.
  assert (Hv : validDate 2025 1 1) by (unfold validDate; cbn; lia).
  split; [exact Hv |].
  split; [unfold validLocation; lra |].
  unfold getSunTimesAsDate. rewrite getSunTimes_eq. cbv zeta.
  eexists. split; [reflexivity |].
  cbn [sunsetDate noon sunrise solarNoon sunset].
  rewrite dayOfYear_ordinal;
    [| exact Hv | unfold ES.msPerDay; lia | lia].
  change (ordinalDay 2025 1 1) with 1%Z.
  rewrite Twilight.gamma_1, Twilight.eqTime_0, Twilight.decl_0.
  change (readOffset (tenHoursWest "Pacific/Honolulu"
                        (localDate (ES.fixed tza) 2025 1 1 0))) with (-600)%Z.
  pose proof Twilight.hourAngle_twilight as Hh.
  set (h := hourAngleMinutes (cosH 67.45 (-0.402449))) in *.
  replace (solarNoonMinutes 45.72604224 (-2.90416896) (-600)) with (-60)%R
    by (unfold solarNoonMinutes; lra).
  rewrite !minutesToDate_eq, codeMinutes_minus_60.
  rewrite NumFacts.codeMinutes_neg.
  - assert (Hf : (Zfloor (-60 + h) <= -1)%Z).
    { assert (Hlt : (Zfloor (-60 + h) < 0)%Z); [| lia].
      apply lt_IZR. pose proof (Zfloor_bound (-60 + h)). lra. }
    rewrite !ESFacts.UTC_fixed. unfold ES.msPerMinute. lia.
  - lra.
  - assert (Hf : Zfloor ((-60 + h) / 60) = (-1)%Z) by (apply Zfloor_eq; lra).
    rewrite Hf. lra.
Qed.

(** ** The poles of the year *)


(** On the same day at 80 degrees north the cosine is above 1, and
    sunrise and sunset fall on solar noon. *)
Lemma polar_night_on_solar_noon :
  let date := localDate (ES.fixed 0) 2025 1 1 0 in
  let x := cosH 80 (decl (gamma (dayOfYear (ES.fixed 0) date))) in
  (1 < x)%R /\
  Math_acos x = None /\
  exists times,
    getSunTimes (ES.fixed 0) (fun _ _ => 0%Z) date 80 0 "Etc/UTC"
    = Some times /\
    sunrise times = solarNoon times /\
    sunset times = solarNoon times.
Proof.
  assert (Hv : validDate 2025 1 1) by (unfold validDate; cbn; lia).
  cbv zeta.
  rewrite (dayOfYear_ordinal 0 2025 1 1 0);
    [| exact Hv | unfold ES.msPerDay; lia | lia].
  change (ordinalDay 2025 1 1) with 1%Z.
  rewrite Twilight.gamma_1, Twilight.decl_0.
  pose proof Twilight.cosH_polar_night as Hx.
  split; [exact Hx |].
  split; [apply Math_acos_outside; right; exact Hx |].
  eexists. split; [apply getSunTimes_eq |].
  cbn [sunrise solarNoon sunset].
  rewrite (dayOfYear_ordinal 0 2025 1 1 0);
    [| exact Hv | unfold ES.msPerDay; lia | lia].
  change (ordinalDay 2025 1 1) with 1%Z.
  rewrite Twilight.gamma_1, Twilight.decl_0.
  rewrite hourAngleMinutes_high by lra.
  split; lra.
Qed.

(** ** A host with summer time *)

Lemma wholeMinuteChanges_summerTime (z : ES.SummerZone) :
  (ES.saving z mod ES.msPerMinute = 0)%Z ->
  wholeMinuteChanges (ES.summerTime z).
Proof.
  intros H x. unfold ES.LocalTime, ES.UTC, ES.summerTime. cbv zeta.
  cbv beta iota.
  destruct (existsb (ES.within (ES.standard z + ES.saving z) x) (ES.periods z));
    match goal with
    | |- context [existsb ?f ?l] => destruct (existsb f l)
    end;
    unfold ES.msPerMinute in *; Z.to_euclidean_division_equations; lia.
Qed.

(** C7: the midday sandhya should start half a width before solar noon and
    end, computed from its start, half a width after it.  On a host in
    Tallinn, with solar noon at 04:10 of 30 March 2025, ten minutes after
    the hour from 03:00 to 04:00 that the clocks skip, the script asks for
    the local time 03:46, which the host reads as 04:46: the period starts
    36 minutes after solar noon and ends, 48 minutes after its start, 84
    minutes after solar noon, where the symmetric formula gives 24. *)
Theorem noonSandhya_after_skipped_hour :
  let sunTimes := {| sunriseDate := 1743289800000%Z;
                     noon := 1743297000000%Z;
                     sunsetDate := 1743304200000%Z |} in
  let v := calculateVedicTimes hostTallinn zoneTallinn tallinn sunTimes in
  let h := (SANDHYA_DURATION_MINUTES tallinn * ES.msPerMinute)%Z in
  (ES.getHours hostTallinn (noon sunTimes) = 4 /\
   ES.getMinutes hostTallinn (noon sunTimes) = 10 /\
   start (noonSandhya v) = noon sunTimes + 36 * ES.msPerMinute /\
   start (noonSandhya v) <> noon sunTimes - h /\
   finish (noonSandhya v) = start (noonSandhya v) + 2 * h /\
   finish (noonSandhya v) = noon sunTimes + 84 * ES.msPerMinute /\
   finish (noonSandhya v) <> noon sunTimes + h)%Z.
Proof.
  cbv zeta. vm_compute.
  repeat split; try reflexivity; intros H; discriminate H.
Qed.

(** The morning sandhya for a sunrise at 03:50 of 26 October 2025, in the
    hour that the clocks of Tallinn show twice: it lasts 108 minutes, where
    the half width of 24 minutes asks for 48. *)
Lemma morningSandhya_clocks_go_back :
  let sunTimes := {| sunriseDate := 1761439800000%Z;
                     noon := 1761472200000%Z;
                     sunsetDate := 1761504600000%Z |} in
  let v := calculateVedicTimes hostTallinn zoneTallinn tallinn sunTimes in
  (start (morningSandhya v) = 1761438360000 /\
   finish (morningSandhya v) = 1761444840000 /\
   finish (morningSandhya v) - start (morningSandhya v)
   = 108 * ES.msPerMinute /\
   finish (morningSandhya v) - sunriseDate sunTimes = 84 * ES.msPerMinute)%Z.
Proof. cbv zeta. vm_compute. repeat split. Qed.

(** On the day on which the clocks go forward, [setHours] for 03:30 gives a
    date that reads 04:30. *)
Lemma setHours_skipped_hour :
  let d := ES.setHours hostTallinn 1743346800000 3 30 0 0 in
  ES.getHours hostTallinn d = 4%Z /\ ES.getMinutes hostTallinn d = 30%Z /\
  ~ shown hostTallinn
      (ES.Day (ES.LocalTime hostTallinn 1743346800000) * ES.msPerDay
       + ES.MakeTime 3 30 0 0)%Z.
Proof.
  cbv zeta. unfold shown. vm_compute.
  repeat split; intros H; discriminate H.
Qed.

(** The summer solstice of 2024 on a host in Tallinn: half an hour after
    midnight the script counts the day 172 of the year, at noon the day
    173, which is the ordinal of the date. *)
Lemma dayOfYear_summer_night :
  dayOfYear hostTallinn (localDate hostTallinn 2024 6 21 1800000) = 172%Z /\
  dayOfYear hostTallinn (localDate hostTallinn 2024 6 21 43200000) = 173%Z /\
  ordinalDay 2024 6 21 = 173%Z.
Proof. vm_compute. repeat split. Qed.

(** At 18:00 of 29 March 2025 in Tallinn, the next day at 18:00 is 23
    hours away. *)
Lemma tomorrow_clocks_go_forward :
  ES.setDate hostTallinn 1743264000000
    (ES.getDate hostTallinn 1743264000000 + 1)
  = (1743264000000 + 23 * ES.msPerHour)%Z.
Proof. vm_compute. reflexivity. Qed.

(** * Further properties *)

(** ** Month, day of the month, and the next day *)

Module CalendarFacts.

Import ES.
Local Open Scope Z_scope.

Lemma MonthFromTime_range (t : Z) : 0 <= MonthFromTime t <= 11.
Proof.
  unfold MonthFromTime. cbv zeta.
  repeat match goal with
         | |- context [if ?b then _ else _] => destruct b
         end; lia.
Qed.

(** The parts of a date make its day again, and the days after it. *)
Lemma MakeDay_parts (t k : Z) :
  MakeDay (YearFromTime t) (MonthFromTime t) (DateFromTime t + k) = Day t + k.
Proof.
  pose proof (MonthFromTime_range t) as Hm.
  unfold MakeDay. cbv zeta.
  replace (MonthFromTime t / 12) with 0 by ESFacts.div_lia.
  replace (MonthFromTime t mod 12) with (MonthFromTime t) by ESFacts.div_lia.
  rewrite Z.add_0_r. unfold DateFromTime, InLeapYear, DayWithinYear. lia.
Qed.

Lemma MakeDate_next (t k : Z) :
  MakeDate (Day t + k) (TimeWithinDay t) = t + k * msPerDay.
Proof. unfold MakeDate, TimeWithinDay, Day, msPerDay. ESFacts.div_lia. Qed.

(** Setting the day of the month to the current one plus [k] asks the
    host for the local time of the date [k] days later: the same time of
    day, across the end of a month or a year too. *)
Lemma setDate_local (LocalTZA : Z -> bool -> Z) (tv k : Z) :
  setDate LocalTZA tv (getDate LocalTZA tv + k)
  = UTC LocalTZA (LocalTime LocalTZA tv + k * msPerDay).
Proof.
  unfold setDate, getDate. cbv zeta. rewrite MakeDay_parts, MakeDate_next.
  reflexivity.
Qed.

(** A date made from a year, a month and a day shows that month and day,
    when the host shows its local time. *)
Lemma getMonth_getDate_localDate (LocalTZA : Z -> bool -> Z)
    (year month day timeOfDay : Z) :
  validDate year month day -> 0 <= timeOfDay < msPerDay ->
  shown LocalTZA (MakeDate (MakeDay year (month - 1) day) timeOfDay) ->
  getMonth LocalTZA (localDate LocalTZA year month day timeOfDay) = month - 1 /\
  getDate LocalTZA (localDate LocalTZA year month day timeOfDay) = day.
Proof.
  intros [Hm Hd] Ht Hs.
  unfold getMonth, getDate, localDate. unfold shown in Hs. rewrite Hs.
  clear Hs.
  set (t := MakeDate (MakeDay year (month - 1) day) timeOfDay).
  assert (HD : Day t = MakeDay year (month - 1) day)
    by (apply ESFacts.Day_MakeDate; exact Ht).
  assert (HY : YearFromTime t = year).
  { unfold YearFromTime. rewrite HD.
    apply ESFacts.YearFromDay_unique, ESFacts.MakeDay_in_year; [lia | exact Hd]. }
  assert (HW : DayWithinYear t
               = daysBeforeMonth (isLeap year) (month - 1) + day - 1).
  { unfold DayWithinYear. rewrite HD, HY. unfold MakeDay. cbv zeta.
    replace ((month - 1) / 12) with 0 by ESFacts.div_lia.
    replace ((month - 1) mod 12) with (month - 1) by ESFacts.div_lia.
    rewrite Z.add_0_r. lia. }
  assert (HM : MonthFromTime t = month - 1).
  { unfold MonthFromTime, InLeapYear. cbv zeta. rewrite HW, HY.
    clear HD HY HW. clearbody t.
    set (mn := month - 1) in *.
    assert (Hc : mn = 0 \/ mn = 1 \/ mn = 2 \/ mn = 3 \/ mn = 4 \/ mn = 5 \/
                 mn = 6 \/ mn = 7 \/ mn = 8 \/ mn = 9 \/ mn = 10 \/ mn = 11)
      by lia.
    clearbody mn.
    destruct (isLeap year);
      repeat (destruct Hc as [-> | Hc]); try subst mn;
      cbv beta iota zeta delta [daysBeforeMonth daysInMonth] in Hd |- *;
      repeat first [ rewrite (proj2 (Z.ltb_lt _ _)) by lia
                   | rewrite (proj2 (Z.ltb_ge _ _)) by lia ];
      reflexivity. }
  split; [exact HM |].
  unfold DateFromTime, InLeapYear. rewrite HM, HW, HY. lia.
Qed.

End CalendarFacts.

(** ** More on the sun times *)

Section SunFacts.

Variable LocalTZA : Z -> bool -> Z.
Variable zoneOffset : string -> Z -> Z.

Local Open Scope R_scope.

Lemma eqTime_bound (g : R) : -20.51 <= eqTime g <= 20.51.
Proof.
  unfold eqTime.
  pose proof (COS_bound g). pose proof (SIN_bound g).
  pose proof (COS_bound (2 * g)). pose proof (SIN_bound (2 * g)).
  lra.
Qed.

Lemma decl_bound (g : R) : -0.489 <= decl g <= 0.489.
Proof.
  unfold decl.
  pose proof (COS_bound g). pose proof (SIN_bound g).
  pose proof (COS_bound (2 * g)). pose proof (SIN_bound (2 * g)).
  pose proof (COS_bound (3 * g)). pose proof (SIN_bound (3 * g)).
  lra.
Qed.

(** X1: solar noon is never more than 20.51 minutes away from the mean
    noon of the longitude, 720 - 4 * lng plus the offset read from the zone
    string, on every day and at every latitude. *)
Theorem solarNoon_near_mean_noon
    (date : Z) (lat lng : R) (timezone : string) :
  exists times,
    getSunTimes LocalTZA zoneOffset date lat lng timezone = Some times /\
    let mean := 720 - 4 * lng + IZR (readOffset (zoneOffset timezone date)) in
    mean - 20.51 <= solarNoon times <= mean + 20.51.
Proof.
  eexists. split; [apply getSunTimes_eq |].
  cbv zeta. cbn [solarNoon]. unfold solarNoonMinutes.
  pose proof (eqTime_bound (gamma (dayOfYear LocalTZA date))). lra.
Qed.

(** X3: away from the poles the quotient in the cosine of the hour angle
    has a positive divisor, on every day of the year. *)
Theorem cosH_divisor_positive (date : Z) (lat : R) :
  -90 < lat < 90 ->
  0 < cos (lat * rad) * cos (decl (gamma (dayOfYear LocalTZA date))).
Proof.
  intros H. pose proof Twilight.PI_bounds as Hpi.
  pose proof (decl_bound (gamma (dayOfYear LocalTZA date))) as Hd.
  apply Rmult_lt_0_compat; apply cos_gt_0; unfold rad; try lra; nra.
Qed.

End SunFacts.

(** ** More on the zone string and the conversion *)

Section ZoneFacts.

Variable zoneOffset : string -> Z -> Z.

(** X4: the script reads back the offset of the zone, in minutes, from
    the zone string whenever the offset is not negative or is a whole
    number of hours (and below 100 hours). *)
Theorem tzOffsetMinutes_read_back (date : Z) (timezone : string) :
  (-6000 < zoneOffset timezone date < 6000)%Z ->
  (0 <= zoneOffset timezone date \/ zoneOffset timezone date mod 60 = 0)%Z ->
  tzOffsetMinutes zoneOffset date timezone = Some (zoneOffset timezone date).
Proof.
  intros Hr Hc. rewrite tzOffsetMinutes_eq. f_equal.
  destruct (Z_lt_le_dec (zoneOffset timezone date) 0) as [Hn | Hp].
  - rewrite StrFacts.readOffset_neg by lia.
    destruct Hc as [Hc | Hc]; [lia |].
    Z.to_euclidean_division_equations; lia.
  - apply StrFacts.readOffset_nonneg. lia.
Qed.

(** X5: for a zone west of Greenwich the script adds the minutes of the
    zone string instead of subtracting them: what it reads is the offset
    plus twice its minutes part. *)
Theorem tzOffsetMinutes_west (date : Z) (timezone : string) :
  (-6000 < zoneOffset timezone date < 0)%Z ->
  tzOffsetMinutes zoneOffset date timezone
  = Some (zoneOffset timezone date
          + 2 * ((- zoneOffset timezone date) mod 60))%Z.
Proof.
  intros Hr. rewrite tzOffsetMinutes_eq. f_equal.
  apply StrFacts.readOffset_neg. exact Hr.
Qed.

End ZoneFacts.

Section ClockFacts.

Variable LocalTZA : Z -> bool -> Z.

Local Abbreviation local := (ES.LocalTime LocalTZA).
Local Abbreviation midnight d :=
  (ES.Day (ES.LocalTime LocalTZA d) * ES.msPerDay)%Z.

(** X6: from midnight on, the date that [minutesToDate] gives is the
    host's reading of the local midnight of the base date plus the whole
    minutes; when the host shows that local time (it is not in an hour that
    the clocks skip), the date shows the hour and the minute of the whole
    minutes, with no seconds, and lies as many days after the base date as
    the minutes hold whole days. *)
Theorem minutesToDate_clock (baseDate : Z) (minutes : R) :
  (0 <= minutes)%R ->
  let target := (midnight baseDate + Zfloor minutes * ES.msPerMinute)%Z in
  let d := minutesToDate LocalTZA baseDate minutes in
  d = ES.UTC LocalTZA target /\
  (shown LocalTZA target ->
   ES.getHours LocalTZA d = ((Zfloor minutes / 60) mod 24)%Z /\
   ES.getMinutes LocalTZA d = (Zfloor minutes mod 60)%Z /\
   ES.getSeconds LocalTZA d = 0%Z /\
   ES.getMilliseconds LocalTZA d = 0%Z /\
   ES.Day (local d) = (ES.Day (local baseDate) + Zfloor minutes / 1440)%Z).
Proof.
  intros H. cbv zeta.
  rewrite minutesToDate_eq, NumFacts.codeMinutes_nonneg by exact H.
  split; [reflexivity |]. intros Hs.
  unfold ES.getHours, ES.getMinutes, ES.getSeconds, ES.getMilliseconds.
  unfold shown in Hs. rewrite Hs. clear Hs.
  assert (Hf : (0 <= Zfloor minutes)%Z) by (apply Zfloor_lub; exact H).
  unfold ES.HourFromTime, ES.MinFromTime, ES.SecFromTime, ES.msFromTime,
    ES.Day, ES.msPerDay, ES.msPerHour, ES.msPerMinute, ES.msPerSecond.
  repeat split; Z.to_euclidean_division_equations; lia.
Qed.

(** X7: before midnight the date is right for whole hours only: it is the
    host's reading of the local midnight plus the floor of the minutes
    when the minutes are a whole number of hours, and of the local time one
    hour before that for any other number of minutes. *)
Theorem minutesToDate_before_midnight_cases (baseDate : Z) (minutes : R) :
  (minutes < 0)%R ->
  (IZR (Zfloor (minutes / 60)) = (minutes / 60)%R ->
   minutesToDate LocalTZA baseDate minutes
   = ES.UTC LocalTZA (midnight baseDate + Zfloor minutes * ES.msPerMinute)%Z) /\
  (IZR (Zfloor (minutes / 60)) <> (minutes / 60)%R ->
   minutesToDate LocalTZA baseDate minutes
   = ES.UTC LocalTZA
       (midnight baseDate + (Zfloor minutes - 60) * ES.msPerMinute)%Z).
Proof.
  intros H. rewrite minutesToDate_eq. split; intros Hh.
  - remember (Zfloor (minutes / 60)) as k eqn:Hk.
    assert (Hm : minutes = IZR (60 * k)) by (rewrite mult_IZR, Hh; field).
    rewrite Hm, NumFacts.codeMinutes_hours, ZfloorZ. reflexivity.
  - rewrite NumFacts.codeMinutes_neg by assumption. reflexivity.
Qed.

End ClockFacts.

Section DayFacts.

Variable tza : Z.

Local Abbreviation LocalTZA := (ES.fixed tza).
Local Abbreviation local := (ES.LocalTime LocalTZA).

(** On a host whose zone keeps one offset, the day of the year looks at the
    local day of the date only. *)
Lemma dayOfYear_same_day (date1 date2 : Z) :
  ES.Day (local date1) = ES.Day (local date2) ->
  dayOfYear LocalTZA date1 = dayOfYear LocalTZA date2.
Proof.
  intros H. unfold dayOfYear, ES.getFullYear, ES.YearFromTime. cbv zeta.
  rewrite H.
  set (y := ES.YearFromDay (ES.Day (local date2))).
  unfold ES.newDate. cbv zeta. rewrite ESFacts.UTC_fixed.
  unfold ES.MakeDate, ES.MakeTime.
  set (M := ES.MakeDay _ 0 0). clearbody M. clear y.
  rewrite !ESFacts.LocalTime_fixed in H.
  unfold ES.Day, ES.msPerDay in *.
  change (1000 * 60 * 60 * 24)%Z with 86400000%Z.
  Z.to_euclidean_division_equations; lia.
Qed.

End DayFacts.

Section OrderFacts.

Variable tza : Z.
Variable zoneOffset : string -> Z -> Z.

Local Abbreviation LocalTZA := (ES.fixed tza).
Local Abbreviation local := (ES.LocalTime LocalTZA).

(** X8: on a host whose zone keeps one offset all year, the time of day of
    the date given to [getSunTimesAsDate] does not matter: two dates on
    the same local day, at which the zone of the place has the same
    offset, give the same three instants. *)
Theorem getSunTimesAsDate_same_day
    (date1 date2 : Z) (lat lng : R) (timezone : string) :
  ES.Day (local date1) = ES.Day (local date2) ->
  zoneOffset timezone date1 = zoneOffset timezone date2 ->
  getSunTimesAsDate LocalTZA zoneOffset date1 lat lng timezone
  = getSunTimesAsDate LocalTZA zoneOffset date2 lat lng timezone.
Proof.
  intros Hd Hz. unfold getSunTimesAsDate. rewrite !getSunTimes_eq. cbv zeta.
  cbn [sunrise solarNoon sunset].
  rewrite (dayOfYear_same_day tza date1 date2 Hd), Hz.
  rewrite !(minutesToDate_same_day LocalTZA date1 date2 _ Hd).
  reflexivity.
Qed.

(** X9: on a host whose zone keeps one offset all year, when the zone of
    the place is ahead of the mean solar time of the longitude by 20.51
    minutes or more, so that solar noon is not before 12:00, the three
    instants come in the order sunrise, solar noon, sunset, at every
    latitude and on every day. *)
Theorem getSunTimesAsDate_ordered_east
    (date : Z) (lat lng : R) (timezone : string) :
  (4 * lng + 20.51 <= IZR (readOffset (zoneOffset timezone date)))%R ->
  exists sunTimes,
    getSunTimesAsDate LocalTZA zoneOffset date lat lng timezone
    = Some sunTimes /\
    (sunriseDate sunTimes <= noon sunTimes <= sunsetDate sunTimes)%Z.
Proof.
  intros H. unfold getSunTimesAsDate. rewrite getSunTimes_eq. cbv zeta.
  eexists. split; [reflexivity |].
  cbn [sunriseDate noon sunsetDate sunrise solarNoon sunset].
  pose proof (hourAngleMinutes_range
                (cosH lat (decl (gamma (dayOfYear LocalTZA date))))) as Hh.
  pose proof (eqTime_bound (gamma (dayOfYear LocalTZA date))) as He.
  unfold solarNoonMinutes.
  split; apply minutesToDate_monotone; lra.
Qed.

End OrderFacts.

Section LayoutFacts.

Variable LocalTZA : Z -> bool -> Z.
Variable zoneOffset : string -> Z -> Z.
Variable c : Constants.

Local Abbreviation minutes k := (k * ES.msPerMinute)%Z.


End LayoutFacts.

Section MinuteFacts.

Variable LocalTZA : Z -> bool -> Z.
Variable zoneOffset : string -> Z -> Z.
Variable c : Constants.

(** X22: on every host that moves a local time, where it moves one, by
    whole minutes, as a host does whose zone keeps one offset and a host
    with summer time, every date that leaves the calculation lies on a whole
    minute: the three solar instants, and the start and the end of each of
    the four periods. *)
Theorem whole_minutes_on_any_host (date : Z) :
  wholeMinuteChanges LocalTZA ->
  exists sunTimes v,
    getSunTimesAsDate LocalTZA zoneOffset date
      (LATITUDE c) (LONGITUDE c) (TIMEZONE c) = Some sunTimes /\
    vedicTimesFor LocalTZA zoneOffset c date = Some v /\
    Forall (wholeMinute LocalTZA) (solarInstants sunTimes ++ datesOf v).
Proof.
  intros Hw. unfold vedicTimesFor, getSunTimesAsDate.
  rewrite getSunTimes_eq. cbv zeta. cbn [option_map].
  eexists. eexists. split; [reflexivity |]. split; [reflexivity |].
  unfold solarInstants, datesOf, calculateVedicTimes. cbv zeta.
  cbn [start finish brahmaMuhurta morningSandhya noonSandhya eveningSandhya
       sunriseDate noon sunsetDate app].
  repeat (apply Forall_cons;
          [repeat (apply shifted_wholeMinute; [exact Hw |]);
           apply minutesToDate_wholeMinute; exact Hw |]).
  apply Forall_nil.
Qed.

End MinuteFacts.

(** ** More on the dates as objects *)

Module FreshFacts.

Section Script.

Variable LocalTZA : Z -> bool -> Z.
Variable zoneOffset : string -> Z -> Z.

(** X11: [getSunTimesAsDate] leaves the date it is given, and every date
    that exists, as it is; the three instants it returns are three new
    objects, different from each other, that hold the instants of the
    calculation by value. *)
Theorem getSunTimesAsDate_new_objects
    (s : Obj.store) (date : Obj.ref) (lat lng : R) (timezone : string) :
  (date < List.length s)%nat ->
  exists o v ext,
    Obj.getSunTimesAsDate LocalTZA zoneOffset date lat lng timezone s
    = (Some o, s ++ ext) /\
    getSunTimesAsDate LocalTZA zoneOffset (nth date s 0%Z) lat lng timezone
    = Some v /\
    [sunriseDate o; noon o; sunsetDate o]
    = [S (List.length s); S (S (List.length s)); S (S (S (List.length s)))] /\
    List.length ext = 4%nat /\
    nth (sunriseDate o) (s ++ ext) 0%Z = sunriseDate v /\
    nth (noon o) (s ++ ext) 0%Z = noon v /\
    nth (sunsetDate o) (s ++ ext) 0%Z = sunsetDate v /\
    (forall d : Obj.ref,
       (d < List.length s)%nat -> nth d (s ++ ext) 0%Z = nth d s 0%Z).
Proof.
  intros H. unfold Obj.getSunTimesAsDate, getSunTimesAsDate.
  rewrite (ObjFacts.bind_run _ _ _ _ _
             (ObjFacts.getSunTimes_run LocalTZA zoneOffset s date lat lng
                timezone H)).
  rewrite getSunTimes_eq. cbv zeta.
  do 3 rewrite (ObjFacts.bind_run _ _ _ _ _
                  (ObjFacts.minutesToDate_run LocalTZA _ _ _)).
  unfold Obj.ret. cbn [sunrise solarNoon sunset].
  rewrite !length_app. cbn [List.length].
  replace (List.length s + 1)%nat with (S (List.length s)) by lia.
  replace (S (List.length s) + 1)%nat with (S (S (List.length s))) by lia.
  replace (S (S (List.length s)) + 1)%nat with (S (S (S (List.length s))))
    by lia.
  rewrite !(ObjFacts.nth_old _ _ date) by (rewrite ?length_app; cbn; lia).
  eexists. eexists. eexists.
  split; [rewrite <- !app_assoc; reflexivity |].
  split; [reflexivity |].
  cbn [sunriseDate noon sunsetDate app List.length].
  split; [reflexivity |]. split; [reflexivity |].
  assert (Hn : forall (k : nat) (l : list Z),
             nth (List.length s + k) (s ++ l) 0%Z = nth k l 0%Z).
  { intros k l. rewrite app_nth2 by lia. f_equal. lia. }
  replace (S (List.length s)) with (List.length s + 1)%nat by lia.
  replace (S (List.length s + 1)) with (List.length s + 2)%nat by lia.
  replace (S (List.length s + 2)) with (List.length s + 3)%nat by lia.
  rewrite !Hn. cbn [nth].
  repeat split. intros d Hd. apply ObjFacts.nth_old. exact Hd.
Qed.

Variable c : Constants.

(** X12: [calculateVedicTimes] changes none of the three dates it is
    given, nor any other date that exists; the eight dates of the periods
    are eight new objects, made in the order of the periods, start before
    end, and they hold the dates of the calculation by value. *)
Theorem calculateVedicTimes_new_objects
    (s : Obj.store) (o : SunDates Obj.ref) :
  (sunriseDate o < List.length s)%nat ->
  (noon o < List.length s)%nat ->
  (sunsetDate o < List.length s)%nat ->
  exists vt ext,
    Obj.calculateVedicTimes LocalTZA zoneOffset c o s = (vt, s ++ ext) /\
    datesOf vt = seq (List.length s) 8 /\
    List.length ext = 8%nat /\
    Obj.readTimes (s ++ ext) vt
    = calculateVedicTimes LocalTZA zoneOffset c
        {| sunriseDate := nth (sunriseDate o) s 0%Z;
           noon := nth (noon o) s 0%Z;
           sunsetDate := nth (sunsetDate o) s 0%Z |} /\
    (forall d : Obj.ref,
       (d < List.length s)%nat -> nth d (s ++ ext) 0%Z = nth d s 0%Z).
Proof.
  intros H1 H2 H3. unfold Obj.calculateVedicTimes.
  do 8 rewrite (ObjFacts.bind_run _ _ _ _ _ (ObjFacts.shifted_run _ _ _ _)).
  cbv beta iota zeta
    delta [Obj.describe Obj.formatTime Obj.valueOf Obj.bind Obj.ret].
  ObjFacts.store_simpl.
  eexists. eexists. split; [rewrite <- !app_assoc; reflexivity |].
  split.
  { unfold datesOf.
    cbn [start finish brahmaMuhurta morningSandhya noonSandhya eveningSandhya].
    rewrite !length_app. cbn [List.length seq].
    repeat f_equal; lia. }
  split; [reflexivity |].
  split.
  { unfold Obj.readTimes, Obj.readPeriod, calculateVedicTimes, describe,
      formatTime.
    cbn [start finish type description brahmaMuhurta morningSandhya
         noonSandhya eveningSandhya sunriseDate noon sunsetDate].
    rewrite !app_assoc. ObjFacts.store_simpl. reflexivity. }
  intros d Hd. apply ObjFacts.nth_old. exact Hd.
Qed.

End Script.

End FreshFacts.

(** ** The calendar and the triggers *)

Module AppsFacts.

Lemma findCalendar_Some (cs : list Apps.Calendar) (i j : nat) :
  Apps.findCalendar cs i = Some j ->
  exists k cal,
    j = (i + k)%nat /\ nth_error cs k = Some cal /\
    Apps.calName cal = Apps.CALENDAR_NAME /\
    forall k' cal', (k' < k)%nat -> nth_error cs k' = Some cal' ->
                    Apps.calName cal' <> Apps.CALENDAR_NAME.
Proof.
  revert i. induction cs as [| cal cs IH]; intros i H; cbn in H.
  - discriminate.
  - destruct (String.eqb (Apps.calName cal) Apps.CALENDAR_NAME) eqn:E.
    + injection H as <-. exists 0%nat, cal.
      repeat split; [lia | apply String.eqb_eq; exact E | intros; lia].
    + destruct (IH (S i) H) as (k & cal0 & -> & Hn & Hname & Hfirst).
      exists (S k), cal0. repeat split; [lia | exact Hn | exact Hname |].
      intros [| k'] cal' Hk Hc; cbn in Hc.
      * injection Hc as <-. apply String.eqb_neq. exact E.
      * apply (Hfirst k' cal'); [lia | exact Hc].
Qed.

Lemma findCalendar_None (cs : list Apps.Calendar) (i : nat) :
  Apps.findCalendar cs i = None ->
  Forall (fun cal => Apps.calName cal <> Apps.CALENDAR_NAME) cs.
Proof.
  revert i. induction cs as [| cal cs IH]; intros i H; cbn in H.
  - constructor.
  - destruct (String.eqb (Apps.calName cal) Apps.CALENDAR_NAME) eqn:E;
      [discriminate |].
    constructor; [apply String.eqb_neq; exact E | apply (IH (S i) H)].
Qed.

Lemma findCalendar_app_Some (cs l : list Apps.Calendar) (i j : nat) :
  Apps.findCalendar cs i = Some j -> Apps.findCalendar (cs ++ l) i = Some j.
Proof.
  revert i. induction cs as [| cal cs IH]; intros i H; cbn in H |- *.
  - discriminate.
  - destruct (String.eqb (Apps.calName cal) Apps.CALENDAR_NAME);
      [exact H | apply IH; exact H].
Qed.

Lemma findCalendar_app_None (cs : list Apps.Calendar) (cal : Apps.Calendar)
    (i : nat) :
  Apps.findCalendar cs i = None ->
  Apps.calName cal = Apps.CALENDAR_NAME ->
  Apps.findCalendar (cs ++ [cal]) i = Some (i + List.length cs)%nat.
Proof.
  revert i. induction cs as [| cal0 cs IH]; intros i H Hn; cbn in H |- *.
  - rewrite Hn, String.eqb_refl. f_equal. lia.
  - destruct (String.eqb (Apps.calName cal0) Apps.CALENDAR_NAME);
      [discriminate |].
    rewrite (IH (S i) H Hn). f_equal. lia.
Qed.

Lemma createEvent_names (i : nat) (e : Apps.Event) (cs : list Apps.Calendar) :
  map Apps.calName (Apps.createEvent i e cs) = map Apps.calName cs.
Proof.
  revert i. induction cs as [| cal cs IH]; intros [| i]; cbn;
    try reflexivity.
  rewrite IH. reflexivity.
Qed.

Lemma createEvent_find (i : nat) (e : Apps.Event) (cs : list Apps.Calendar)
    (k : nat) :
  Apps.findCalendar (Apps.createEvent i e cs) k = Apps.findCalendar cs k.
Proof.
  revert i k. induction cs as [| cal cs IH]; intros [| i] k; cbn;
    try reflexivity.
  rewrite IH. reflexivity.
Qed.

Lemma createEvent_at (i : nat) (e : Apps.Event) (cs : list Apps.Calendar) :
  (i < List.length cs)%nat ->
  eventsAt (Apps.createEvent i e cs) i = eventsAt cs i ++ [e].
Proof.
  revert i. induction cs as [| cal cs IH]; intros [| i] H; cbn in H |- *;
    try lia.
  - reflexivity.
  - apply IH. lia.
Qed.

Lemma createEvent_length (i : nat) (e : Apps.Event) (cs : list Apps.Calendar) :
  List.length (Apps.createEvent i e cs) = List.length cs.
Proof.
  rewrite <- (length_map Apps.calName), createEvent_names, length_map.
  reflexivity.
Qed.

Lemma createEvent_other (i j : nat) (e : Apps.Event)
    (cs : list Apps.Calendar) :
  i <> j -> nth_error (Apps.createEvent i e cs) j = nth_error cs j.
Proof.
  revert i j. induction cs as [| cal cs IH]; intros [| i] [| j] H; cbn;
    try reflexivity; try lia.
  apply IH. lia.
Qed.

Section Script.

Variable formatDay : Z -> string -> string.
Variable c : Constants.

(** X13: [getOrCreateCalendar] returns a calendar with the name of the
    script, the first one in the order of the service; it creates a
    calendar, after the others and without events, only when no calendar
    has the name, and it leaves the calendars that exist as they are. *)
Theorem getOrCreateCalendar_first (cs : list Apps.Calendar) :
  exists cal,
    nth_error (snd (Apps.getOrCreateCalendar c cs))
              (fst (Apps.getOrCreateCalendar c cs)) = Some cal /\
    Apps.calName cal = Apps.CALENDAR_NAME /\
    (forall k cal',
       (k < fst (Apps.getOrCreateCalendar c cs))%nat ->
       nth_error cs k = Some cal' ->
       Apps.calName cal' <> Apps.CALENDAR_NAME) /\
    (snd (Apps.getOrCreateCalendar c cs) = cs \/
     Forall (fun cal' => Apps.calName cal' <> Apps.CALENDAR_NAME) cs /\
     Apps.calEvents cal = [] /\
     snd (Apps.getOrCreateCalendar c cs) = cs ++ [cal]).
Proof.
  unfold Apps.getOrCreateCalendar.
  destruct (Apps.findCalendar cs 0) as [j |] eqn:E.
  - destruct (findCalendar_Some cs 0 j E) as (k & cal & -> & Hn & Hname & Hf).
    cbn [fst snd Nat.add]. exists cal.
    repeat split; [exact Hn | exact Hname | exact Hf | left; reflexivity].
  - pose proof (findCalendar_None cs 0 E) as Hall.
    unfold Apps.createCalendar. cbn [fst snd].
    eexists. split; [rewrite nth_error_app2, Nat.sub_diag by lia; reflexivity |].
    split; [reflexivity |]. split.
    + intros k cal' Hk Hc. rewrite Forall_forall in Hall.
      apply Hall. apply (nth_error_In cs k). exact Hc.
    + right. repeat split. exact Hall.
Qed.

(** After a call the search finds the calendar that the call returned. *)
Lemma findCalendar_after (cs : list Apps.Calendar) :
  Apps.findCalendar (snd (Apps.getOrCreateCalendar c cs)) 0
  = Some (fst (Apps.getOrCreateCalendar c cs)).
Proof.
  unfold Apps.getOrCreateCalendar.
  destruct (Apps.findCalendar cs 0) as [j |] eqn:E.
  - cbn [fst snd]. exact E.
  - unfold Apps.createCalendar. cbn [fst snd].
    apply (findCalendar_app_None cs _ 0 E). reflexivity.
Qed.

(** X14: a second call of [getOrCreateCalendar] returns the calendar of
    the first call and creates nothing. *)
Theorem getOrCreateCalendar_again (cs : list Apps.Calendar) :
  Apps.getOrCreateCalendar c (snd (Apps.getOrCreateCalendar c cs))
  = Apps.getOrCreateCalendar c cs.
Proof.
  unfold Apps.getOrCreateCalendar at 1. rewrite findCalendar_after.
  destruct (Apps.getOrCreateCalendar c cs). reflexivity.
Qed.

Lemma getOrCreateCalendar_valid (cs : list Apps.Calendar) :
  (fst (Apps.getOrCreateCalendar c cs)
   < List.length (snd (Apps.getOrCreateCalendar c cs)))%nat.
Proof.
  unfold Apps.getOrCreateCalendar.
  destruct (Apps.findCalendar cs 0) as [j |] eqn:E.
  - destruct (findCalendar_Some cs 0 j E) as (k & cal & -> & Hn & _).
    cbn [fst snd Nat.add]. apply nth_error_Some. rewrite Hn. discriminate.
  - unfold Apps.createCalendar. cbn [fst snd]. rewrite length_app. cbn. lia.
Qed.

Lemma createCalendarEvents_eq (v : VedicTimes Z) (date : Z)
    (cs : list Apps.Calendar) :
  let i := fst (Apps.getOrCreateCalendar c cs) in
  let cs1 := snd (Apps.getOrCreateCalendar c cs) in
  let dateStr := formatDay date (TIMEZONE c) in
  Apps.createCalendarEvents formatDay c v date cs
  = Apps.createEvent i (Apps.eventOf c (eveningSandhya v) dateStr)
      (Apps.createEvent i (Apps.eventOf c (noonSandhya v) dateStr)
         (Apps.createEvent i (Apps.eventOf c (morningSandhya v) dateStr)
            (Apps.createEvent i (Apps.eventOf c (brahmaMuhurta v) dateStr)
               cs1))).
Proof.
  cbv zeta. unfold Apps.createCalendarEvents.
  destruct (Apps.getOrCreateCalendar c cs) as [i cs1]. reflexivity.
Qed.

Lemma createCalendarEvents_events (v : VedicTimes Z) (date : Z)
    (cs : list Apps.Calendar) :
  eventsAt (Apps.createCalendarEvents formatDay c v date cs)
           (fst (Apps.getOrCreateCalendar c cs))
  = eventsAt (snd (Apps.getOrCreateCalendar c cs))
             (fst (Apps.getOrCreateCalendar c cs))
    ++ fourEvents c v (formatDay date (TIMEZONE c)).
Proof.
  rewrite createCalendarEvents_eq. cbv zeta.
  pose proof (getOrCreateCalendar_valid cs) as Hv.
  rewrite !createEvent_at by (rewrite ?createEvent_length; exact Hv).
  unfold fourEvents. rewrite <- !app_assoc. reflexivity.
Qed.

(** X15: [createCalendarEvents] adds exactly four events, those of the
    four periods in their order, after the events of the calendar of the
    script; it changes no other calendar, and no name of a calendar. *)
Theorem createCalendarEvents_appends (v : VedicTimes Z) (date : Z)
    (cs : list Apps.Calendar) :
  let i := fst (Apps.getOrCreateCalendar c cs) in
  let cs1 := snd (Apps.getOrCreateCalendar c cs) in
  let cs2 := Apps.createCalendarEvents formatDay c v date cs in
  eventsAt cs2 i
  = eventsAt cs1 i ++ fourEvents c v (formatDay date (TIMEZONE c)) /\
  map Apps.calName cs2 = map Apps.calName cs1 /\
  (forall j, j <> i -> nth_error cs2 j = nth_error cs1 j).
Proof.
  cbv zeta. split; [apply createCalendarEvents_events |].
  rewrite createCalendarEvents_eq. cbv zeta. split.
  - rewrite !createEvent_names. reflexivity.
  - intros j Hj.
    rewrite !createEvent_other by (intros E; apply Hj; symmetry; exact E).
    reflexivity.
Qed.

(** X16: [createCalendarEvents] never looks for the events it created
    before: a second run for the same day finds the same calendar and adds
    the same four events once more. *)
Theorem createCalendarEvents_twice (v : VedicTimes Z) (date : Z)
    (cs : list Apps.Calendar) :
  let i := fst (Apps.getOrCreateCalendar c cs) in
  let cs1 := snd (Apps.getOrCreateCalendar c cs) in
  let four := fourEvents c v (formatDay date (TIMEZONE c)) in
  let cs2 := Apps.createCalendarEvents formatDay c v date cs in
  fst (Apps.getOrCreateCalendar c cs2) = i /\
  eventsAt (Apps.createCalendarEvents formatDay c v date cs2) i
  = eventsAt cs1 i ++ four ++ four.
Proof.
  cbv zeta.
  pose proof (createCalendarEvents_events v date cs) as E1.
  assert (Hg : Apps.getOrCreateCalendar c
                 (Apps.createCalendarEvents formatDay c v date cs)
               = (fst (Apps.getOrCreateCalendar c cs),
                  Apps.createCalendarEvents formatDay c v date cs)).
  { rewrite createCalendarEvents_eq. cbv zeta.
    unfold Apps.getOrCreateCalendar at 1.
    rewrite !createEvent_find, findCalendar_after. reflexivity. }
  split; [rewrite Hg; reflexivity |].
  pose proof (createCalendarEvents_events v date
                (Apps.createCalendarEvents formatDay c v date cs)) as E2.
  rewrite Hg in E2. cbn [fst snd] in E2.
  rewrite E2, E1, <- app_assoc. reflexivity.
Qed.

End Script.

End AppsFacts.


(** ** The daily run and its trigger *)

Module RunFacts.

Section Run.

Variable LocalTZA : Z -> bool -> Z.
Variable zoneOffset : string -> Z -> Z.
Variable formatDay : Z -> string -> string.
Variable c : Constants.

(** X17: [createVedicEvents] works for the date that the host reads from
    the local time of the clock one day later: the same time of day on the
    next day of the calendar, across the end of a month or a year too, and
    24 hours after the clock where the host has one offset at both
    instants.  It creates the events of the periods of that date, writes
    one line to the log and leaves the triggers as they are. *)
Theorem createVedicEvents_tomorrow (now : Z) (w : Apps.World) :
  let tomorrow :=
    ES.UTC LocalTZA (ES.LocalTime LocalTZA now + ES.msPerDay)%Z in
  let w' := Apps.createVedicEvents LocalTZA zoneOffset formatDay c now w in
  (exists v,
     vedicTimesFor LocalTZA zoneOffset c tomorrow = Some v /\
     Apps.calendars w'
     = Apps.createCalendarEvents formatDay c v tomorrow (Apps.calendars w) /\
     Apps.triggers w' = Apps.triggers w /\
     Apps.logger w'
     = (Apps.logger w
        ++ [("Vedic events created for "
             ++ formatDay tomorrow (TIMEZONE c))%string])%list) /\
  (forall o : Z,
     steady LocalTZA o now -> steady LocalTZA o (now + ES.msPerDay)%Z ->
     tomorrow = (now + ES.msPerDay)%Z).
Proof.
  cbv zeta. split.
  - unfold Apps.createVedicEvents, vedicTimesFor. cbv zeta.
    pose proof (CalendarFacts.setDate_local LocalTZA now 1) as Hs.
    rewrite Z.mul_1_l in Hs. rewrite Hs.
    unfold getSunTimesAsDate. rewrite getSunTimes_eq. cbv zeta.
    cbn [option_map]. eexists. split; [reflexivity |].
    unfold Apps.log. cbn [Apps.calendars Apps.triggers Apps.logger].
    repeat split.
  - intros o [H1 _] [_ H2]. unfold ES.UTC, ES.LocalTime. rewrite H1.
    replace (now + o + ES.msPerDay)%Z with (now + ES.msPerDay + o)%Z by lia.
    rewrite H2. lia.
Qed.

End Run.

Lemma removeHandlers_filter (found ts : list Apps.Trigger) :
  Apps.removeHandlers found ts = filter (kept found) ts.
Proof.
  revert ts. induction found as [| t found IH]; intros ts.
  - cbn. induction ts as [| u ts IHts]; cbn; [| rewrite <- IHts]; reflexivity.
  - cbn [Apps.removeHandlers].
    destruct (String.eqb (Apps.handlerFunction t) "createVedicEvents") eqn:E.
    + rewrite IH. unfold Apps.deleteTrigger.
      induction ts as [| u ts IHts]; cbn [filter]; [reflexivity |].
      unfold kept at 2. cbn [existsb]. rewrite E. cbn [andb].
      destruct (Apps.uniqueId u =? Apps.uniqueId t)%nat; cbn [negb orb].
      * exact IHts.
      * cbn [filter]. fold (kept found u).
        destruct (kept found u); [rewrite IHts |]; reflexivity || exact IHts.
    + rewrite IH. apply filter_ext. intros u. unfold kept. cbn [existsb].
      rewrite E. reflexivity.
Qed.

Lemma same_id_same_trigger (ts : list Apps.Trigger) (u t : Apps.Trigger) :
  NoDup (map Apps.uniqueId ts) -> In u ts -> In t ts ->
  Apps.uniqueId u = Apps.uniqueId t -> u = t.
Proof.
  induction ts as [| x ts IH]; intros Hn Hu Ht E; [contradiction |].
  cbn in Hn. inversion Hn as [| ? ? Hx Hn']; subst.
  destruct Hu as [-> | Hu], Ht as [-> | Ht].
  - reflexivity.
  - exfalso. apply Hx. rewrite E. apply in_map. exact Ht.
  - exfalso. apply Hx. rewrite <- E. apply in_map. exact Hu.
  - apply IH; assumption.
Qed.

(** A trigger of the project that calls the handler is not kept. *)
Lemma kept_handler (ts : list Apps.Trigger) (u : Apps.Trigger) :
  In u ts ->
  String.eqb (Apps.handlerFunction u) "createVedicEvents" = true ->
  kept ts u = false.
Proof.
  intros Hu E. unfold kept. apply negb_false_iff, existsb_exists.
  exists u. split; [exact Hu |]. rewrite E, Nat.eqb_refl. reflexivity.
Qed.

(** When no two triggers share an identifier, every other trigger is. *)
Lemma kept_other (ts : list Apps.Trigger) (u : Apps.Trigger) :
  NoDup (map Apps.uniqueId ts) -> In u ts ->
  String.eqb (Apps.handlerFunction u) "createVedicEvents" = false ->
  kept ts u = true.
Proof.
  intros Hn Hu E. unfold kept. apply negb_true_iff.
  destruct (existsb _ ts) eqn:X; [| reflexivity].
  apply existsb_exists in X. destruct X as (t & Ht & Hb).
  apply andb_true_iff in Hb. destruct Hb as [Eh Ei].
  apply Nat.eqb_eq in Ei.
  rewrite (same_id_same_trigger ts u t Hn Hu Ht Ei) in E. congruence.
Qed.

Lemma freshId_new (ts : list Apps.Trigger) :
  ~ In (Apps.freshId ts) (map Apps.uniqueId ts).
Proof.
  unfold Apps.freshId. intros H.
  assert (Hle : Forall (fun k => k <= list_max (map Apps.uniqueId ts))%nat
                  (map Apps.uniqueId ts))
    by (apply list_max_le; lia).
  rewrite Forall_forall in Hle. specialize (Hle _ H). lia.
Qed.

Lemma no_handler_left (ts l : list Apps.Trigger) :
  incl l ts ->
  triggersFor "createVedicEvents" (filter (kept ts) l) = [].
Proof.
  unfold triggersFor.
  induction l as [| u l IH]; intros Hi; cbn [filter]; [reflexivity |].
  assert (Hu : In u ts) by (apply Hi; left; reflexivity).
  assert (Hl : incl l ts) by (intros x Hx; apply Hi; right; exact Hx).
  destruct (kept ts u) eqn:K; [| apply IH; exact Hl].
  cbn [filter].
  destruct (String.eqb (Apps.handlerFunction u) "createVedicEvents") eqn:E.
  - rewrite (kept_handler ts u Hu E) in K. discriminate.
  - apply IH. exact Hl.
Qed.

Lemma others_kept (ts l : list Apps.Trigger) :
  NoDup (map Apps.uniqueId ts) -> incl l ts ->
  filter (kept ts) l = otherTriggers "createVedicEvents" l.
Proof.
  intros Hn. unfold otherTriggers.
  induction l as [| u l IH]; intros Hi; cbn [filter]; [reflexivity |].
  assert (Hu : In u ts) by (apply Hi; left; reflexivity).
  assert (Hl : incl l ts) by (intros x Hx; apply Hi; right; exact Hx).
  rewrite (IH Hl).
  destruct (String.eqb (Apps.handlerFunction u) "createVedicEvents") eqn:E.
  - rewrite (kept_handler ts u Hu E). reflexivity.
  - rewrite (kept_other ts u Hn Hu E). reflexivity.
Qed.

Lemma otherTriggers_idem (l : list Apps.Trigger) :
  otherTriggers "createVedicEvents" (otherTriggers "createVedicEvents" l)
  = otherTriggers "createVedicEvents" l.
Proof.
  unfold otherTriggers. induction l as [| u l IH]; cbn [filter];
    [reflexivity |].
  destruct (negb (String.eqb (Apps.handlerFunction u) "createVedicEvents"))
    eqn:E; [cbn [filter]; rewrite E, IH |]; reflexivity || exact IH.
Qed.

Lemma otherTriggers_app (l l' : list Apps.Trigger) :
  otherTriggers "createVedicEvents" (l ++ l')
  = otherTriggers "createVedicEvents" l
    ++ otherTriggers "createVedicEvents" l'.
Proof. unfold otherTriggers. apply filter_app. Qed.

(** X18: after [setupTrigger] the project has exactly one trigger that
    calls [createVedicEvents], however many it had: the new one, every day
    at hour 18; the calendars are as before and the log has one line
    more. *)
Theorem setupTrigger_one (w : Apps.World) :
  exists t,
    triggersFor "createVedicEvents" (Apps.triggers (Apps.setupTrigger w))
    = [t] /\
    Apps.schedule t = Apps.Daily 18 1 /\
    Apps.calendars (Apps.setupTrigger w) = Apps.calendars w /\
    Apps.logger (Apps.setupTrigger w)
    = (Apps.logger w ++ ["Daily trigger set to run at 6:00 PM."%string])%list.
Proof.
  unfold Apps.setupTrigger, Apps.log, Apps.newDailyTrigger. cbv zeta.
  cbn [Apps.calendars Apps.triggers Apps.logger].
  eexists. split.
  - unfold triggersFor. rewrite filter_app.
    fold (triggersFor "createVedicEvents").
    rewrite removeHandlers_filter.
    fold (triggersFor "createVedicEvents"
            (filter (kept (Apps.triggers w)) (Apps.triggers w))).
    rewrite no_handler_left by apply incl_refl.
    cbn [filter Apps.handlerFunction app]. reflexivity.
  - repeat split.
Qed.

(** X19: when the triggers of the project have different identifiers,
    [setupTrigger] leaves the triggers of all other handlers in the
    project, in their order, and the identifiers stay different. *)
Theorem setupTrigger_keeps_others (w : Apps.World) :
  NoDup (map Apps.uniqueId (Apps.triggers w)) ->
  otherTriggers "createVedicEvents" (Apps.triggers (Apps.setupTrigger w))
  = otherTriggers "createVedicEvents" (Apps.triggers w) /\
  NoDup (map Apps.uniqueId (Apps.triggers (Apps.setupTrigger w))).
Proof.
  intros Hn.
  unfold Apps.setupTrigger, Apps.log, Apps.newDailyTrigger. cbv zeta.
  cbn [Apps.triggers].
  rewrite removeHandlers_filter, (others_kept _ _ Hn (incl_refl _)).
  split.
  - rewrite otherTriggers_app, otherTriggers_idem.
    unfold otherTriggers at 2. cbn [filter Apps.handlerFunction].
    rewrite String.eqb_refl. apply app_nil_r.
  - rewrite map_app. cbn [map Apps.uniqueId].
    apply NoDup_app.
    + unfold otherTriggers.
      clear - Hn. induction (Apps.triggers w) as [| u l IH]; cbn [filter map];
        [constructor |].
      cbn [map] in Hn. inversion Hn as [| ? ? Hx Hn']; subst.
      destruct (negb _); [| apply IH; exact Hn'].
      cbn [map]. constructor; [| apply IH; exact Hn'].
      intros Hin. apply Hx. apply in_map_iff in Hin.
      destruct Hin as (x & Ex & Hxin). apply filter_In in Hxin.
      rewrite <- Ex. apply in_map. apply Hxin.
    + constructor; [intros [] | constructor].
    + intros k Hk [Hf | []]. subst k. revert Hk. apply freshId_new.
Qed.

End RunFacts.

(** ** The day of the year and the events of a day *)

Section YearFacts.

Variable LocalTZA : Z -> bool -> Z.

(** The day of the year of a date that the host shows, in a year outside
    0 to 99: the ordinal of the day in its year, moved by the whole days in
    the time of day less what the zone is ahead, at the date, of the zone
    at the start of the year. *)
Lemma dayOfYear_localDate (year month day timeOfDay : Z) :
  validDate year month day -> (0 <= timeOfDay < ES.msPerDay)%Z ->
  (year < 0 \/ 99 < year)%Z ->
  let here := ES.MakeDate (ES.MakeDay year (month - 1) day) timeOfDay in
  let first := ES.MakeDate (ES.MakeDay year 0 0) (ES.MakeTime 0 0 0 0) in
  shown LocalTZA here ->
  dayOfYear LocalTZA (localDate LocalTZA year month day timeOfDay)
  = (ordinalDay year month day
     + (timeOfDay - (LocalTZA here false - LocalTZA first false))
       / ES.msPerDay)%Z.
Proof.
  intros [Hm Hd] Ht Hy. cbv zeta. intros Hs.
  unfold dayOfYear. cbv zeta.
  assert (HY : ES.getFullYear LocalTZA
                 (localDate LocalTZA year month day timeOfDay) = year).
  { unfold ES.getFullYear, localDate, ES.YearFromTime.
    unfold shown in Hs. rewrite Hs, ESFacts.Day_MakeDate by exact Ht.
    apply ESFacts.YearFromDay_unique, ESFacts.MakeDay_in_year;
      [lia | exact Hd]. }
  rewrite HY. clear HY Hs.
  rewrite ordinalDay_eq by exact Hm.
  unfold ES.newDate. cbv zeta.
  replace ((0 <=? year)%Z && (year <=? 99)%Z) with false
    by (symmetry; apply andb_false_iff; rewrite Z.leb_gt, Z.leb_gt; lia).
  unfold localDate, ES.UTC.
  set (oHere := LocalTZA (ES.MakeDate (ES.MakeDay year (month - 1) day)
                         timeOfDay) false).
  set (oFirst := LocalTZA (ES.MakeDate (ES.MakeDay year 0 0)
                         (ES.MakeTime 0 0 0 0)) false).
  clearbody oHere oFirst.
  unfold ES.MakeDate, ES.MakeDay, ES.MakeTime. cbv zeta.
  replace ((month - 1) / 12)%Z with 0%Z
    by (Z.to_euclidean_division_equations; lia).
  replace ((month - 1) mod 12)%Z with (month - 1)%Z
    by (Z.to_euclidean_division_equations; lia).
  change (0 / 12)%Z with 0%Z. change (0 mod 12)%Z with 0%Z.
  rewrite !Z.add_0_r.
  change (ES.daysBeforeMonth (ES.isLeap year) 0) with 0%Z.
  unfold ES.msPerDay in Ht |- *.
  change (1000 * 60 * 60 * 24)%Z with 86400000%Z.
  Z.to_euclidean_division_equations; lia.
Qed.

(** X20: for a date of a year outside 0 to 99 that the host shows, the day
    of the year is the ordinal of the date in its year, from 1 to 365, or
    to 366 in a leap year, with the angle of the year between 0 and 2 pi,
    from the time of day on by which the zone at the date is ahead of the
    zone at the start of the year: at any time of the day where the two
    offsets are the same, and from 01:00 on in the summer of a zone with
    summer time.  Before that time of day it is the ordinal less one. *)
Theorem dayOfYear_in_year (year month day timeOfDay : Z) :
  validDate year month day -> (0 <= timeOfDay < ES.msPerDay)%Z ->
  (year < 0 \/ 99 < year)%Z ->
  let here := ES.MakeDate (ES.MakeDay year (month - 1) day) timeOfDay in
  let first := ES.MakeDate (ES.MakeDay year 0 0) (ES.MakeTime 0 0 0 0) in
  let ahead := (LocalTZA here false - LocalTZA first false)%Z in
  shown LocalTZA here ->
  let n := dayOfYear LocalTZA (localDate LocalTZA year month day timeOfDay) in
  ((ahead <= timeOfDay < ahead + ES.msPerDay)%Z ->
   n = ordinalDay year month day /\
   (1 <= n <= ES.DaysInYear year)%Z /\
   (0 <= gamma n <= 2 * PI)%R) /\
  ((ahead - ES.msPerDay <= timeOfDay < ahead)%Z ->
   n = (ordinalDay year month day - 1)%Z).
Proof.
  intros Hv Ht Hy. cbv zeta. intros Hs.
  rewrite (dayOfYear_localDate year month day timeOfDay Hv Ht Hy Hs).
  set (ahead := (LocalTZA _ false - LocalTZA _ false)%Z). clearbody ahead.
  split.
  - intros Ha.
    replace ((timeOfDay - ahead) / ES.msPerDay)%Z with 0%Z
      by (unfold ES.msPerDay in *; Z.to_euclidean_division_equations; lia).
    rewrite Z.add_0_r.
    destruct Hv as [Hm Hd].
    assert (Hn : (1 <= ordinalDay year month day <= ES.DaysInYear year)%Z).
    { rewrite ordinalDay_eq by exact Hm.
      pose proof (ESFacts.daysBeforeMonth_bounds (ES.isLeap year) (month - 1)
                    day) as Hb.
      unfold ES.DaysInYear. destruct (ES.isLeap year); lia. }
    split; [reflexivity |]. split; [exact Hn |].
    pose proof (ESFacts.DaysInYear_bounds year) as Hy2.
    pose proof PI_RGT_0 as Hpi.
    assert (H1 : (1 <= IZR (ordinalDay year month day) <= 366)%R).
    { split; apply IZR_le; lia. }
    unfold gamma.
    replace (2 * PI / 365 * (IZR (ordinalDay year month day) - 1))%R
      with (2 * PI * ((IZR (ordinalDay year month day) - 1) / 365))%R
      by (field; lra).
    assert (H2 : (0 <= (IZR (ordinalDay year month day) - 1) / 365 <= 1)%R)
      by lra.
    nra.
  - intros Ha.
    replace ((timeOfDay - ahead) / ES.msPerDay)%Z with (-1)%Z
      by (unfold ES.msPerDay in *; Z.to_euclidean_division_equations; lia).
    lia.
Qed.

End YearFacts.

Section EventFacts.

Variable tza : Z.
Variable zoneOffset : string -> Z -> Z.
Variable c : Constants.

Local Abbreviation LocalTZA := (ES.fixed tza).

Lemma fourEvents_well_formed (sunTimes : SunDates Z) (dateStr : string) :
  wholeMinute LocalTZA (sunriseDate sunTimes) ->
  wholeMinute LocalTZA (noon sunTimes) ->
  wholeMinute LocalTZA (sunsetDate sunTimes) ->
  (0 <= BRAHMA_MUHURTA_DURATION_MINUTES c)%Z ->
  (0 <= SANDHYA_DURATION_MINUTES c)%Z ->
  Forall (fun e => wholeMinute LocalTZA (Apps.evStart e) /\
                   wholeMinute LocalTZA (Apps.evEnd e) /\
                   (Apps.evStart e <= Apps.evEnd e)%Z)
         (fourEvents c (calculateVedicTimes LocalTZA zoneOffset c sunTimes)
                     dateStr).
Proof.
  intros W1 W2 W3 Hd Hh.
  pose proof (calculateVedicTimes_bounds tza zoneOffset c sunTimes) as H.
  cbv zeta in H. destruct H as (H1 & H2 & H3 & H4 & H5 & H6 & H7 & H8).
  pose proof (wholeMinuteChanges_fixed tza) as Hw.
  unfold fourEvents, Apps.eventOf.
  repeat constructor; cbn [Apps.evStart Apps.evEnd];
    try (rewrite ?H2, ?H4, ?H6, ?H8, ?H1, ?H3, ?H5, ?H7;
         unfold ES.msPerMinute; lia);
    unfold calculateVedicTimes; cbv zeta;
    cbn [start finish brahmaMuhurta morningSandhya noonSandhya
         eveningSandhya];
    repeat (apply shifted_wholeMinute; [exact Hw |]); assumption.
Qed.

(** X21: on a host whose zone keeps one offset all year, with a duration
    and a half width that are not negative, every event of a day starts
    and ends on a whole minute and does not end before it starts, whatever
    the day and the string of its date. *)
Theorem events_well_formed (date : Z) (dateStr : string) :
  (0 <= BRAHMA_MUHURTA_DURATION_MINUTES c)%Z ->
  (0 <= SANDHYA_DURATION_MINUTES c)%Z ->
  exists v,
    vedicTimesFor LocalTZA zoneOffset c date = Some v /\
    Forall (fun e => wholeMinute LocalTZA (Apps.evStart e) /\
                     wholeMinute LocalTZA (Apps.evEnd e) /\
                     (Apps.evStart e <= Apps.evEnd e)%Z)
           (fourEvents c v dateStr).
Proof.
  intros Hd Hh. unfold vedicTimesFor, getSunTimesAsDate.
  rewrite getSunTimes_eq. cbv zeta. cbn [option_map].
  eexists. split; [reflexivity |].
  apply fourEvents_well_formed; try assumption;
    cbn [sunriseDate noon sunsetDate]; apply minutesToDate_wholeMinute;
    apply wholeMinuteChanges_fixed.
Qed.

End EventFacts.

(** ** Instances of the further properties *)

(** Tallinn on the first of January 2025. *)
Lemma cosH_divisor_positive_witness :
  (0 < cos (59.4369 * rad)
       * cos (decl (gamma (dayOfYear hostTallinn 1735725600000))))%R.
Proof.
  apply (cosH_divisor_positive hostTallinn 1735725600000 59.4369). lra.
Defined.

Lemma tzOffsetMinutes_read_back_witness :
  tzOffsetMinutes (fun _ _ => 120%Z) 1735725600000 "Europe/Tallinn"
  = Some 120%Z.
Proof.
  apply (tzOffsetMinutes_read_back (fun _ _ => 120%Z) 1735725600000
           "Europe/Tallinn"); [lia | left; lia].
Defined.

Lemma tzOffsetMinutes_west_witness :
  tzOffsetMinutes halfHourWest 1735725600000 "America/St_Johns"
  = Some (-210 + 2 * (- -210 mod 60))%Z.
Proof.
  apply (tzOffsetMinutes_west halfHourWest 1735725600000 "America/St_Johns").
  unfold halfHourWest. lia.
Defined.

(** 1500 minutes after midnight on a host in Tallinn: one o'clock of the
    next day. *)
Lemma minutesToDate_clock_witness :
  let d := minutesToDate hostTallinn 1735725600000 1500 in
  ES.getHours hostTallinn d = ((Zfloor 1500 / 60) mod 24)%Z /\
  ES.getMinutes hostTallinn d = (Zfloor 1500 mod 60)%Z /\
  ES.getSeconds hostTallinn d = 0%Z /\
  ES.getMilliseconds hostTallinn d = 0%Z /\
  ES.Day (ES.LocalTime hostTallinn d)
  = (ES.Day (ES.LocalTime hostTallinn 1735725600000) + Zfloor 1500 / 1440)%Z.
Proof.
  cbv zeta.
  destruct (minutesToDate_clock hostTallinn 1735725600000 1500) as [_ H];
    [lra |].
  apply H. unfold shown. rewrite (ZfloorZ 1500). reflexivity.
Defined.

Lemma minutesToDate_before_midnight_cases_witness :
  (IZR (Zfloor (-30 / 60)) = (-30 / 60)%R ->
   minutesToDate hostTallinn 1735725600000 (-30)
   = ES.UTC hostTallinn
       (ES.Day (ES.LocalTime hostTallinn 1735725600000) * ES.msPerDay
        + Zfloor (-30) * ES.msPerMinute)%Z) /\
  (IZR (Zfloor (-30 / 60)) <> (-30 / 60)%R ->
   minutesToDate hostTallinn 1735725600000 (-30)
   = ES.UTC hostTallinn
       (ES.Day (ES.LocalTime hostTallinn 1735725600000) * ES.msPerDay
        + (Zfloor (-30) - 60) * ES.msPerMinute)%Z).
Proof.
  apply (minutesToDate_before_midnight_cases hostTallinn 1735725600000 (-30)).
  lra.
Defined.

(** Ten and eleven o'clock of the same morning. *)
Lemma getSunTimesAsDate_same_day_witness :
  getSunTimesAsDate (ES.fixed 7200000) (fun _ _ => 120%Z) 1735725600000
    59.4369 24.7536 "Europe/Tallinn"
  = getSunTimesAsDate (ES.fixed 7200000) (fun _ _ => 120%Z) 1735729200000
      59.4369 24.7536 "Europe/Tallinn".
Proof.
  apply (getSunTimesAsDate_same_day 7200000 (fun _ _ => 120%Z)
           1735725600000 1735729200000); reflexivity.
Defined.

(** Tallinn in winter: four times the longitude is 99.0144. *)
Lemma getSunTimesAsDate_ordered_east_witness :
  exists sunTimes,
    getSunTimesAsDate (ES.fixed 7200000) (fun _ _ => 120%Z) 1735725600000
      59.4369 24.7536 "Europe/Tallinn" = Some sunTimes /\
    (sunriseDate sunTimes <= noon sunTimes <= sunsetDate sunTimes)%Z.
Proof.
  apply (getSunTimesAsDate_ordered_east 7200000 (fun _ _ => 120%Z)
           1735725600000 59.4369 24.7536 "Europe/Tallinn").
  change (readOffset 120) with 120%Z. lra.
Defined.

(** A run on the evening of 29 March 2025, the eve of the day on which the
    clocks of Tallinn go forward. *)
Lemma whole_minutes_on_any_host_witness :
  exists sunTimes v,
    getSunTimesAsDate hostTallinn zoneTallinn 1743264000000
      (LATITUDE tallinn) (LONGITUDE tallinn) (TIMEZONE tallinn)
    = Some sunTimes /\
    vedicTimesFor hostTallinn zoneTallinn tallinn 1743264000000 = Some v /\
    Forall (wholeMinute hostTallinn) (solarInstants sunTimes ++ datesOf v).
Proof.
  apply (whole_minutes_on_any_host hostTallinn zoneTallinn tallinn
           1743264000000).
  apply wholeMinuteChanges_summerTime. reflexivity.
Defined.


Lemma getSunTimesAsDate_new_objects_witness :
  exists o v ext,
    Obj.getSunTimesAsDate hostTallinn zoneTallinn 0
      59.4369 24.7536 "Europe/Tallinn" [1735725600000%Z]
    = (Some o, [1735725600000%Z] ++ ext) /\
    getSunTimesAsDate hostTallinn zoneTallinn (nth 0 [1735725600000%Z] 0%Z)
      59.4369 24.7536 "Europe/Tallinn" = Some v /\
    [sunriseDate o; noon o; sunsetDate o] = [2; 3; 4]%nat /\
    List.length ext = 4%nat /\
    nth (sunriseDate o) ([1735725600000%Z] ++ ext) 0%Z = sunriseDate v /\
    nth (noon o) ([1735725600000%Z] ++ ext) 0%Z = noon v /\
    nth (sunsetDate o) ([1735725600000%Z] ++ ext) 0%Z = sunsetDate v /\
    (forall d : Obj.ref,
       (d < 1)%nat ->
       nth d ([1735725600000%Z] ++ ext) 0%Z = nth d [1735725600000%Z] 0%Z).
Proof.
  apply (FreshFacts.getSunTimesAsDate_new_objects hostTallinn zoneTallinn
           [1735725600000%Z] 0 59.4369 24.7536 "Europe/Tallinn").
  cbn. lia.
Defined.

Lemma calculateVedicTimes_new_objects_witness :
  exists vt ext,
    Obj.calculateVedicTimes hostTallinn zoneTallinn tallinn
      {| sunriseDate := 0%nat; noon := 1%nat; sunsetDate := 2%nat |}
      [1735715640000%Z; 1735727520000%Z; 1735739400000%Z]
    = (vt, [1735715640000%Z; 1735727520000%Z; 1735739400000%Z] ++ ext) /\
    datesOf vt = seq 3 8 /\
    List.length ext = 8%nat /\
    Obj.readTimes
      ([1735715640000%Z; 1735727520000%Z; 1735739400000%Z] ++ ext) vt
    = calculateVedicTimes hostTallinn zoneTallinn tallinn
        {| sunriseDate := 1735715640000%Z;
           noon := 1735727520000%Z;
           sunsetDate := 1735739400000%Z |} /\
    (forall d : Obj.ref,
       (d < 3)%nat ->
       nth d ([1735715640000%Z; 1735727520000%Z; 1735739400000%Z] ++ ext) 0%Z
       = nth d [1735715640000%Z; 1735727520000%Z; 1735739400000%Z] 0%Z).
Proof.
  apply (FreshFacts.calculateVedicTimes_new_objects hostTallinn zoneTallinn
           tallinn
           [1735715640000%Z; 1735727520000%Z; 1735739400000%Z]
           {| sunriseDate := 0%nat; noon := 1%nat; sunsetDate := 2%nat |});
    cbn; lia.
Defined.

(** The summer solstice of 2024 at noon, on a host in Tallinn: the zone is
    an hour ahead of the zone at the start of the year. *)
Lemma dayOfYear_in_year_witness :
  let n := dayOfYear hostTallinn (localDate hostTallinn 2024 6 21 43200000) in
  n = ordinalDay 2024 6 21 /\
  (1 <= n <= ES.DaysInYear 2024)%Z /\
  (0 <= gamma n <= 2 * PI)%R.
Proof.
  cbv zeta.
  destruct (dayOfYear_in_year hostTallinn 2024 6 21 43200000) as [H _].
  - unfold validDate. cbn. lia.
  - unfold ES.msPerDay. lia.
  - lia.
  - reflexivity.
  - apply H.
    change (hostTallinn
              (ES.MakeDate (ES.MakeDay 2024 (6 - 1) 21) 43200000) false
            - hostTallinn
                (ES.MakeDate (ES.MakeDay 2024 0 0) (ES.MakeTime 0 0 0 0))
                false)%Z
      with 3600000%Z.
    unfold ES.msPerDay. lia.
Defined.

Lemma events_well_formed_witness :
  exists v,
    vedicTimesFor (ES.fixed 7200000) (fun _ _ => 120%Z) tallinn
      1735725600000 = Some v /\
    Forall (fun e => wholeMinute (ES.fixed 7200000) (Apps.evStart e) /\
                     wholeMinute (ES.fixed 7200000) (Apps.evEnd e) /\
                     (Apps.evStart e <= Apps.evEnd e)%Z)
           (fourEvents tallinn v "2025-01-01").
Proof.
  apply (events_well_formed 7200000 (fun _ _ => 120%Z) tallinn
           1735725600000 "2025-01-01");
    cbn [BRAHMA_MUHURTA_DURATION_MINUTES SANDHYA_DURATION_MINUTES tallinn];
    lia.
Defined.

Example setupTrigger_busyProject :
  Apps.triggers (Apps.setupTrigger busyProject)
  = [{| Apps.uniqueId := 2; Apps.handlerFunction := "sendReport";
        Apps.schedule := Apps.OtherSchedule "weekly" |};
     {| Apps.uniqueId := 3; Apps.handlerFunction := "createVedicEvents";
        Apps.schedule := Apps.Daily 18 1 |}].
Proof. reflexivity. Qed.

Lemma setupTrigger_keeps_others_witness :
  otherTriggers "createVedicEvents"
    (Apps.triggers (Apps.setupTrigger busyProject))
  = otherTriggers "createVedicEvents" (Apps.triggers busyProject) /\
  NoDup (map Apps.uniqueId (Apps.triggers (Apps.setupTrigger busyProject))).
Proof.
  apply (RunFacts.setupTrigger_keeps_others busyProject).
  cbn. repeat constructor; cbn; intros H;
    repeat (destruct H as [H | H]; [discriminate |]); exact H.
Defined.
